(** * CSV Explorer: filters, the filter form, charts and correlations

    A shallow embedding of [apply_filters], [build_filter_ui], [viz_area]
    and [correlation_matrix] from [CSV-Explorer.py], over a model of the
    pandas objects they manipulate (pandas 1.x / 2.x semantics,
    object-dtype text columns).

    - Floating-point cells and operands are IEEE binary64 values, here the
      primitive floats of Rocq, so comparisons against NaN behave as they do
      in numpy, and the coefficients of [DataFrame.corr] are the values its
      loop computes.
    - A [DataFrame] is column-major, as in pandas: an index of row labels
      and a list of labelled, typed columns.
    - Exceptions are explicit ([Result]); object identity and the binding
      [out = out[mask]] are explicit (a heap of frames and a state monad). *)

From Stdlib Require Import List String Ascii ZArith Bool Arith Lia Floats.
From Stdlib Require Import DecimalString Permutation.
Import ListNotations.

Local Open Scope list_scope.
Local Open Scope string_scope.

(* ================================================================= *)
(** ** Exceptions *)

Inductive PyExc : Set :=
| KeyError          (* out[col] with an unknown label *)
| AttributeError    (* .dtype on the frame a duplicated label selects *)
| TypeError         (* iterating a value that is not iterable *)
| ReError           (* re.compile on a malformed pattern *)
| ValueError        (* reset_index inserting a label that exists *)
| ReferenceError.   (* a dangling reference; unreachable from valid ones *)

Inductive Result (A : Type) : Type :=
| Ok (a : A)
| Raise (e : PyExc).

Arguments Ok {A} a.
Arguments Raise {A} e.

Definition rbind {A B : Type} (r : Result A) (k : A -> Result B) : Result B :=
  match r with
  | Ok a => k a
  | Raise e => Raise e
  end.

Notation "x <- e ;; k" := (rbind e (fun x => k))
  (at level 61, e at next level, right associativity).

(* ================================================================= *)
(** ** float64 *)

Module Float64.

(** Elementwise comparisons of numpy on float64, against a scalar. *)
Definition eq (x v : float) : bool := PrimFloat.eqb x v.
Definition ne (x v : float) : bool := negb (PrimFloat.eqb x v).
Definition lt (x v : float) : bool := PrimFloat.ltb x v.
Definition le (x v : float) : bool := PrimFloat.leb x v.
Definition gt (x v : float) : bool := PrimFloat.ltb v x.
Definition ge (x v : float) : bool := PrimFloat.leb v x.

Definition isnan (x : float) : bool := negb (PrimFloat.eqb x x).

(** An int64 or bool column meets a Python float as float64: integers are
    rounded to the nearest representable value, ties to even. *)
Definition of_int64 (z : Z) : float :=
  SF2Prim (binary_normalize prec emax z 0 false).

Definition of_bool (b : bool) : float := if b then one else zero.

End Float64.

(* ================================================================= *)
(** ** Timestamps (whole seconds) and their rendering by [astype(str)] *)

Record Timestamp : Set := mkTimestamp {
  ts_year : nat; ts_month : nat; ts_day : nat;
  ts_hour : nat; ts_minute : nat; ts_second : nat
}.

Definition str_of_nat (n : nat) : string :=
  NilEmpty.string_of_uint (Nat.to_uint n).

(** ["%02d"] *)
Definition pad2 (n : nat) : string :=
  if (n <? 10)%nat then "0" ++ str_of_nat n else str_of_nat n.

Definition fmt_date (t : Timestamp) : string :=
  str_of_nat (ts_year t) ++ "-" ++ pad2 (ts_month t) ++ "-" ++ pad2 (ts_day t).

Definition fmt_time (t : Timestamp) : string :=
  pad2 (ts_hour t) ++ ":" ++ pad2 (ts_minute t) ++ ":" ++ pad2 (ts_second t).

Definition is_midnight (t : Timestamp) : bool :=
  ((ts_hour t =? 0) && (ts_minute t =? 0) && (ts_second t =? 0))%nat.

(** [astype(str)] on a datetime64 column ([DatetimeArray.astype] formats
    the array through [_format_native_types]): ONE format is chosen from
    the whole column, "%Y-%m-%d" when every non-missing value falls on
    midnight ([_is_dates_only]), date and time otherwise.  A missing value
    (NaT) is rendered "NaT". *)
Definition is_dates_only (xs : list (option Timestamp)) : bool :=
  forallb (fun x => match x with None => true | Some t => is_midnight t end) xs.

Definition format_datetime64 (xs : list (option Timestamp)) : list string :=
  let dates_only := is_dates_only xs in
  map (fun x =>
         match x with
         | None => "NaT"
         | Some t =>
             if dates_only then fmt_date t
             else fmt_date t ++ " " ++ fmt_time t
         end) xs.

(* ================================================================= *)
(** ** Series and DataFrame *)

Inductive Dtype : Set := int64 | float64 | bool_ | datetime64 | object.

(** A column: its dtype and its values.  In an [object] column a cell is a
    Python [str] or is missing (NaN), which is what [read_csv] produces for
    text; an int64 or bool column has no missing cell; in a float64 column
    the missing cell is NaN. *)
Inductive Series : Type :=
| Int64 (xs : list Z)
| F64 (xs : list float)
| Bool_ (xs : list bool)
| Datetime64 (xs : list (option Timestamp))
| Object (xs : list (option string)).

Definition dtype (s : Series) : Dtype :=
  match s with
  | Int64 _ => int64
  | F64 _ => float64
  | Bool_ _ => bool_
  | Datetime64 _ => datetime64
  | Object _ => object
  end.

Definition is_numeric_dtype (d : Dtype) : bool :=
  match d with
  | int64 | float64 | bool_ => true
  | datetime64 | object => false
  end.

Definition is_datetime64_any_dtype (d : Dtype) : bool :=
  match d with
  | datetime64 => true
  | _ => false
  end.

Definition size (s : Series) : nat :=
  match s with
  | Int64 xs => List.length xs
  | F64 xs => List.length xs
  | Bool_ xs => List.length xs
  | Datetime64 xs => List.length xs
  | Object xs => List.length xs
  end.

Record DataFrame : Type := mkDataFrame {
  index : list nat;                    (* row labels *)
  columns : list (string * Series)     (* column label, column *)
}.

(** Every column is as long as the index, as in every pandas frame. *)
Definition aligned (df : DataFrame) : bool :=
  forallb (fun c => (size (snd c) =? List.length (index df))%nat) (columns df).

(** [out[col]] followed by [.dtype]: a label that occurs once selects a
    Series; an absent label raises KeyError; a repeated label selects a
    DataFrame, on which [.dtype] raises AttributeError. *)
Definition getitem (df : DataFrame) (col : string) : Result Series :=
  match filter (fun c => String.eqb (fst c) col) (columns df) with
  | [] => Raise KeyError
  | [c] => Ok (snd c)
  | _ :: _ :: _ => Raise AttributeError
  end.

(** Boolean selection: the elements whose mask position is True. *)
Fixpoint take {A : Type} (m : list bool) (xs : list A) : list A :=
  match m, xs with
  | b :: m', x :: xs' => if b then x :: take m' xs' else take m' xs'
  | _, _ => []
  end.

Definition series_take (m : list bool) (s : Series) : Series :=
  match s with
  | Int64 xs => Int64 (take m xs)
  | F64 xs => F64 (take m xs)
  | Bool_ xs => Bool_ (take m xs)
  | Datetime64 xs => Datetime64 (take m xs)
  | Object xs => Object (take m xs)
  end.

(** [df[mask]]: the rows whose mask position is True, with their labels;
    labels, order and dtypes of the columns are kept. *)
Definition getitem_mask (m : list bool) (df : DataFrame) : DataFrame :=
  {| index := take m (index df);
     columns := map (fun c => (fst c, series_take m (snd c))) (columns df) |}.

(** [astype(str)] on an object cell: [str] of the cell; a missing cell is
    the float NaN and is not skipped, it becomes the text "nan". *)
Definition str_of_object (x : option string) : string :=
  match x with
  | Some s => s
  | None => "nan"
  end.

(** What the two branches of the loop body read from a column.
    - numeric dtype ([is_numeric_dtype] holds of int64, float64 and bool):
      the values as float64, for comparison with [float(val)];
    - any other dtype: [out[col].astype(str)]. *)
Definition values (s : Series) : list float + list string :=
  match s with
  | Int64 xs => inl (map Float64.of_int64 xs)
  | F64 xs => inl xs
  | Bool_ xs => inl (map Float64.of_bool xs)
  | Datetime64 xs => inr (format_datetime64 xs)
  | Object xs => inr (map str_of_object xs)
  end.

(* ================================================================= *)
(** ** Operands, filters, session state *)

(** A filter operand is whatever Python object the widget returned when the
    filter was added (a float, a date, a str, a list of str).  The evaluator
    observes it through three protocols only, and that is how it is
    represented: what each of them yields on the object. *)
Record PyVal : Type := mkPyVal {
  py_float : option float;             (* float(val); None when it raises *)
  py_str : string;                     (* str(val) *)
  py_str_items : option (list string)  (* [str(x) for x in val];
                                          None when val is not iterable *)
}.

(** One entry of [st.session_state["filters"]]: the dict
    [{"col": col, "op": op, "val": val}]. *)
Record Filter : Type := mkFilter {
  col : string;
  op : string;
  val : PyVal
}.

(** The part of [st.session_state] the evaluator reads: the key "filters"
    may be absent. *)
Record SessionState : Type := mkSession {
  filters : option (list Filter)
}.

(** [st.session_state.get("filters", [])] *)
Definition session_filters (st : SessionState) : list Filter :=
  match filters st with
  | Some fs => fs
  | None => []
  end.

(** The kind of a column as [build_filter_ui] dispatches on it. *)
Inductive Kind : Set := Numeric | Temporal | Categorical.

Definition kind_of (d : Dtype) : Kind :=
  if is_numeric_dtype d then Numeric
  else if is_datetime64_any_dtype d then Temporal
  else Categorical.

(* ================================================================= *)
(** ** Masks computed by the loop body *)

(** Lines 88-99: the chain over [op] on a numeric column, [v = float(val)].
    An operator outside the six leaves [out] as it is. *)
Definition numeric_mask (op : string) (v : float) (xs : list float)
  : option (list bool) :=
  if op =? "==" then Some (map (fun x => Float64.eq x v) xs)
  else if op =? "!=" then Some (map (fun x => Float64.ne x v) xs)
  else if op =? "<" then Some (map (fun x => Float64.lt x v) xs)
  else if op =? "<=" then Some (map (fun x => Float64.le x v) xs)
  else if op =? ">" then Some (map (fun x => Float64.gt x v) xs)
  else if op =? ">=" then Some (map (fun x => Float64.ge x v) xs)
  else None.

(** [s.isin(values)] *)
Definition isin (vs : list string) (s : list string) : list bool :=
  map (fun x => existsb (String.eqb x) vs) s.

(** [~mask] *)
Definition invert (m : list bool) : list bool := map negb m.

Section Evaluator.

(** [re.compile(pat, re.IGNORECASE)] as pandas calls it for
    [str.contains(pat, case=False)] (regex=True by default): [None] when
    the pattern is malformed, otherwise the test
    [regex.search(x) is not None]. *)
Variable re_compile : string -> option (string -> bool).

(** [s.str.contains(pat, na=False, case=False)]; [s] holds no missing
    value after [astype(str)], so [na] has nothing to act on. *)
Definition str_contains (pat : string) (s : list string)
  : Result (list bool) :=
  match re_compile pat with
  | None => Raise ReError
  | Some search => Ok (map search s)
  end.

(** Lines 101-113: the chain over [op] on [s = out[col].astype(str)]. *)
Definition string_mask (op : string) (val : PyVal) (s : list string)
  : Result (option (list bool)) :=
  if op =? "==" then Ok (Some (map (fun x => x =? py_str val) s))
  else if op =? "!=" then Ok (Some (map (fun x => negb (x =? py_str val)) s))
  else if op =? "contains" then
    m <- str_contains (py_str val) s ;; Ok (Some m)
  else if op =? "not contains" then
    m <- str_contains (py_str val) s ;; Ok (Some (invert m))
  else if op =? "in" then
    match py_str_items val with
    | None => Raise TypeError
    | Some vs => Ok (Some (isin vs s))
    end
  else if op =? "not in" then
    match py_str_items val with
    | None => Raise TypeError
    | Some vs => Ok (Some (invert (isin vs s)))
    end
  else Ok None.

(** Lines 82-113: the mask the body selects with, or [None] when the body
    leaves [out] bound to the same frame ([continue], or no operator of
    the chain applies). *)
Definition row_mask (f : Filter) (s : Series) : Result (option (list bool)) :=
  match values s with
  | inl xs =>
      match py_float (val f) with
      | None => Ok None
      | Some v => Ok (numeric_mask (op f) v xs)
      end
  | inr strs => string_mask (op f) (val f) strs
  end.

(* --------------------------------------------------------------- *)
(** *** Frames as heap objects *)

Definition Ref : Set := nat.
Definition Heap : Type := list DataFrame.

(** A computation reads and extends the heap and returns or raises. *)
Definition M (A : Type) : Type := Heap -> Result A * Heap.

Definition ret {A : Type} (a : A) : M A := fun h => (Ok a, h).

Definition bind {A B : Type} (c : M A) (k : A -> M B) : M B :=
  fun h =>
    match c h with
    | (Ok a, h') => k a h'
    | (Raise e, h') => (Raise e, h')
    end.

Definition lift {A : Type} (r : Result A) : M A := fun h => (r, h).

Definition deref (r : Ref) : M DataFrame :=
  fun h =>
    match nth_error h r with
    | Some df => (Ok df, h)
    | None => (Raise ReferenceError, h)
    end.

(** A new frame object; no existing object is touched. *)
Definition alloc (df : DataFrame) : M Ref :=
  fun h => (Ok (List.length h), (h ++ [df])%list).

Notation "x <~ c ;; k" := (bind c (fun x => k))
  (at level 61, c at next level, right associativity).

(** [df.copy()] *)
Definition copy (r : Ref) : M Ref :=
  df <~ deref r ;; alloc df.

(** The body of the loop, lines 81-113; returns the frame [out] is bound
    to afterwards. *)
Definition loop_body (f : Filter) (out : Ref) : M Ref :=
  frame <~ deref out ;;
  s <~ lift (getitem frame (col f)) ;;
  m <~ lift (row_mask f s) ;;
  match m with
  | None => ret out
  | Some mask => alloc (getitem_mask mask frame)
  end.

Fixpoint for_each (fs : list Filter) (out : Ref) : M Ref :=
  match fs with
  | [] => ret out
  | f :: fs' => out' <~ loop_body f out ;; for_each fs' out'
  end.

Definition apply_filters (st : SessionState) (df : Ref) : M Ref :=
  let filters := session_filters st in
  out <~ copy df ;;
  for_each filters out.

(** [evaluate(T, F)] of the specification: [apply_filters] run on a heap
    that holds [T], with [F] in the session; the value of the frame it
    returns. *)
Definition evaluate (T : DataFrame) (F : list Filter) : Result DataFrame :=
  fst ((out <~ apply_filters (mkSession (Some F)) 0 ;; deref out) [T]).

(* --------------------------------------------------------------- *)
(** *** The loop on frame values *)

(** The frame value [out] denotes after one turn of the loop. *)
Definition select (f : Filter) (T : DataFrame) : Result DataFrame :=
  s <- getitem T (col f) ;;
  m <- row_mask f s ;;
  Ok (match m with
      | None => T
      | Some mask => getitem_mask mask T
      end).

Fixpoint select_all (fs : list Filter) (T : DataFrame) : Result DataFrame :=
  match fs with
  | [] => Ok T
  | f :: fs' => T' <- select f T ;; select_all fs' T'
  end.

End Evaluator.

(* ================================================================= *)
(** ** A regex engine for literal patterns *)

(** The engine used to run the evaluator on concrete inputs.  It accepts
    the patterns made of ASCII characters none of which is special to [re],
    on which [re.compile(pat, re.IGNORECASE).search] is a case-insensitive
    substring test (on ASCII text), and rejects every other pattern. *)
Module LiteralRegex.

Definition special : list ascii := list_ascii_of_string ".^$*+?{}[]\|()".

Definition plain_char (c : ascii) : bool :=
  (nat_of_ascii c <? 128)%nat && negb (existsb (Ascii.eqb c) special).

Definition plain (pat : string) : bool :=
  forallb plain_char (list_ascii_of_string pat).

Definition lower_char (c : ascii) : ascii :=
  let n := nat_of_ascii c in
  if ((65 <=? n) && (n <=? 90))%nat then ascii_of_nat (n + 32) else c.

Fixpoint lower (s : string) : string :=
  match s with
  | EmptyString => EmptyString
  | String c s' => String (lower_char c) (lower s')
  end.

Fixpoint occurs (pat s : string) : bool :=
  String.prefix pat s ||
  match s with
  | EmptyString => false
  | String _ s' => occurs pat s'
  end.

Definition compile (pat : string) : option (string -> bool) :=
  if plain pat then Some (fun x => occurs (lower pat) (lower x)) else None.

End LiteralRegex.


(* ================================================================= *)
(** ** Rows *)

Inductive Cell : Type :=
| IntCell (z : Z)
| FloatCell (x : float)
| BoolCell (b : bool)
| TimeCell (t : option Timestamp)
| ObjectCell (s : option string).

Definition cells (s : Series) : list Cell :=
  match s with
  | Int64 xs => map IntCell xs
  | F64 xs => map FloatCell xs
  | Bool_ xs => map BoolCell xs
  | Datetime64 xs => map TimeCell xs
  | Object xs => map ObjectCell xs
  end.

(** A row: its label and its cell in every column, in column order (a cell
    is [None] only where a column is shorter than the index, which does not
    happen in an aligned frame). *)
Definition Row : Type := (nat * list (option Cell))%type.

Fixpoint zip_rows (idx : list nat) (cols : list (list Cell)) : list Row :=
  match idx with
  | [] => []
  | i :: idx' =>
      (i, map (@hd_error Cell) cols) :: zip_rows idx' (map (@tl Cell) cols)
  end.

Definition rows (df : DataFrame) : list Row :=
  zip_rows (index df) (map (fun c => cells (snd c)) (columns df)).

Definition labels (df : DataFrame) : list string := map fst (columns df).

Definition dtypes (df : DataFrame) : list Dtype :=
  map (fun c => dtype (snd c)) (columns df).

(** [l1] is [l2] with some elements removed, the others in their order. *)
Inductive Subseq {A : Type} : list A -> list A -> Prop :=
| Subseq_nil : Subseq [] []
| Subseq_drop (x : A) (l1 l2 : list A) : Subseq l1 l2 -> Subseq l1 (x :: l2)
| Subseq_keep (x : A) (l1 l2 : list A) :
    Subseq l1 l2 -> Subseq (x :: l1) (x :: l2).

(** Two selections in a row are one selection. *)
Fixpoint compose_mask (m1 m2 : list bool) : list bool :=
  match m1 with
  | [] => []
  | true :: m1' =>
      match m2 with
      | [] => []
      | b :: m2' => b :: compose_mask m1' m2'
      end
  | false :: m1' => false :: compose_mask m1' m2
  end.

(** [T'] is [T] or a boolean selection of [T]. *)
Inductive Selected (T : DataFrame) : DataFrame -> Prop :=
| Selected_same : Selected T T
| Selected_mask (m : list bool) : Selected T (getitem_mask m T).

(** The six operators of the chain over [astype(str)]. *)
Definition string_ops : list string :=
  ["=="; "!="; "contains"; "not contains"; "in"; "not in"].

(** [f] compares the texts [astype(str)] renders from a datetime64 column
    of [T]. *)
Definition reads_datetime_text (T : DataFrame) (f : Filter) : bool :=
  match getitem T (col f) with
  | Ok s => is_datetime64_any_dtype (dtype s)
            && existsb (String.eqb (op f)) string_ops
  | Raise _ => false
  end.

(* ================================================================= *)
(** ** Counting per group ([viz_area], bar and line charts) *)

Definition isna (c : Cell) : bool :=
  match c with
  | IntCell _ | BoolCell _ => false
  | FloatCell x => Float64.isnan x
  | TimeCell t => match t with None => true | Some _ => false end
  | ObjectCell s => match s with None => true | Some _ => false end
  end.

Definition timestamp_fields (t : Timestamp) : list nat :=
  [ts_year t; ts_month t; ts_day t; ts_hour t; ts_minute t; ts_second t].

Fixpoint lex_compare (a b : list nat) : comparison :=
  match a, b with
  | [], [] => Eq
  | [], _ :: _ => Lt
  | _ :: _, [] => Gt
  | x :: a', y :: b' =>
      match Nat.compare x y with
      | Eq => lex_compare a' b'
      | c => c
      end
  end.

Definition timestamp_compare (s t : Timestamp) : comparison :=
  lex_compare (timestamp_fields s) (timestamp_fields t).

(** Two cells of the grouping column fall in the same group; with
    [dropna=False] the missing values form one group. *)
Definition key_eqb (a b : Cell) : bool :=
  match a, b with
  | IntCell x, IntCell y => Z.eqb x y
  | FloatCell x, FloatCell y =>
      PrimFloat.eqb x y || (Float64.isnan x && Float64.isnan y)
  | BoolCell x, BoolCell y => Bool.eqb x y
  | TimeCell (Some s), TimeCell (Some t) =>
      match timestamp_compare s t with Eq => true | _ => false end
  | TimeCell None, TimeCell None => true
  | ObjectCell (Some s), ObjectCell (Some t) => String.eqb s t
  | ObjectCell None, ObjectCell None => true
  | _, _ => false
  end.

(** The order in which the groups are emitted ([sort=True]): ascending,
    the group of the missing values last. *)
Definition key_leb (a b : Cell) : bool :=
  match a, b with
  | IntCell x, IntCell y => Z.leb x y
  | FloatCell x, FloatCell y => Float64.isnan y || PrimFloat.leb x y
  | BoolCell x, BoolCell y => implb x y
  | TimeCell _, TimeCell None => true
  | TimeCell None, TimeCell (Some _) => false
  | TimeCell (Some s), TimeCell (Some t) =>
      match timestamp_compare s t with Gt => false | _ => true end
  | ObjectCell _, ObjectCell None => true
  | ObjectCell None, ObjectCell (Some _) => false
  | ObjectCell (Some s), ObjectCell (Some t) => String.leb s t
  | _, _ => true
  end.

Fixpoint unique (ks : list Cell) : list Cell :=
  match ks with
  | [] => []
  | k :: ks' => k :: filter (fun k' => negb (key_eqb k' k)) (unique ks')
  end.

Fixpoint insert_key (k : Cell) (ks : list Cell) : list Cell :=
  match ks with
  | [] => [k]
  | k' :: ks' => if key_leb k k' then k :: ks else k' :: insert_key k ks'
  end.

Definition sort_keys (ks : list Cell) : list Cell :=
  fold_right insert_key [] ks.

Definition group_keys (by_ : Series) : list Cell :=
  sort_keys (unique (cells by_)).

(** Rows of the group [k]. *)
Definition group_size (by_ : Series) (k : Cell) : nat :=
  List.length (filter (fun c => key_eqb c k) (cells by_)).

(** Rows of the group [k] whose measure is present: [count] skips the
    missing values. *)
Definition group_count (by_ measure : Series) (k : Cell) : nat :=
  List.length
    (filter (fun p => key_eqb (fst p) k && negb (isna (snd p)))
       (combine (cells by_) (cells measure))).

(** Rows of the group [k] whose measure is missing. *)
Definition group_missing (by_ measure : Series) (k : Cell) : nat :=
  List.length
    (filter (fun p => key_eqb (fst p) k && isna (snd p))
       (combine (cells by_) (cells measure))).

(** One entry per group: its key and its number. *)
Definition Grouped : Type := list (Cell * nat).

(** Line 136: [plot_df.groupby(x, dropna=False)[y].count().reset_index()].
    Labels are looked up as by [getitem]; [reset_index] cannot insert the
    grouping label beside a column of the same label. *)
Definition groupby_count (df : DataFrame) (x y : string) : Result Grouped :=
  by_ <- getitem df x ;;
  measure <- getitem df y ;;
  if x =? y then Raise ValueError
  else Ok (map (fun k => (k, group_count by_ measure k)) (group_keys by_)).

(** Line 141:
    [plot_df.groupby(x, dropna=False).size().reset_index(name="count")]. *)
Definition groupby_size (df : DataFrame) (x : string) : Result Grouped :=
  by_ <- getitem df x ;;
  if x =? "count" then Raise ValueError
  else Ok (map (fun k => (k, group_size by_ k)) (group_keys by_)).

(** Lines 125-143 for the aggregation "count": the measure is used when a
    label is chosen ([y] is neither [None] nor the empty label, both falsy)
    and its column is numeric; otherwise the rows are counted. *)
Definition viz_area_count (df : DataFrame) (x : string) (y : option string)
  : Result Grouped :=
  match y with
  | None => groupby_size df x
  | Some y' =>
      if y' =? "" then groupby_size df x
      else
        measure <- getitem df y' ;;
        if is_numeric_dtype (dtype measure) then groupby_count df x y'
        else groupby_size df x
  end.

(* ================================================================= *)
(** ** Concrete operands and tables *)

(** The characters of an ASCII text, as iterating the [str] yields them. *)
Definition chars (s : string) : list string :=
  map (fun c => String c EmptyString) (list_ascii_of_string s).

(** [st.number_input] returned 20.0. *)
Definition number_20 : PyVal :=
  {| py_float := Some 20%float; py_str := "20.0"; py_str_items := None |}.

(** [st.text_input] returned "abc"; [float("abc")] raises ValueError. *)
Definition text_abc : PyVal :=
  {| py_float := None; py_str := "abc"; py_str_items := Some (chars "abc") |}.

(** [st.text_input] returned "nan"; [float("nan")] is NaN. *)
Definition text_nan : PyVal :=
  {| py_float := Some nan; py_str := "nan";
     py_str_items := Some (chars "nan") |}.

(** [st.text_input] returned "2020-01-01 00:00:00". *)
Definition text_new_year : PyVal :=
  {| py_float := None; py_str := "2020-01-01 00:00:00";
     py_str_items := Some (chars "2020-01-01 00:00:00") |}.

(** age = [10, 20, 30, missing] *)
Definition ages : DataFrame :=
  {| index := [0; 1; 2; 3]%nat;
     columns := [("age", F64 [10; 20; 30; nan]%float)] |}.

(** city = ["NYC", missing], age = [10, 20] *)
Definition cities : DataFrame :=
  {| index := [0; 1]%nat;
     columns := [("city", Object [Some "NYC"; None]);
                 ("age", F64 [10; 20]%float)] |}.

(** city = ["A", "A"], age = [1, missing] *)
Definition sparse : DataFrame :=
  {| index := [0; 1]%nat;
     columns := [("city", Object [Some "A"; Some "A"]);
                 ("age", F64 [1; nan]%float)] |}.

Definition new_year : Timestamp := mkTimestamp 2020 1 1 0 0 0.
Definition next_noon : Timestamp := mkTimestamp 2020 1 2 12 0 0.

(** when = [2020-01-01 00:00:00, 2020-01-02 12:00:00] *)
Definition visits : DataFrame :=
  {| index := [0; 1]%nat;
     columns := [("when", Datetime64 [Some new_year; Some next_noon])] |}.

(** (age, >=, 20) *)
Definition age_at_least_20 : Filter := mkFilter "age" ">=" number_20.

(** The rows of [ages] with age 20 and age 30. *)
Definition adults : DataFrame :=
  {| index := [1; 2]%nat; columns := [("age", F64 [20; 30]%float)] |}.

(** (city, contains, "ny") *)
Definition city_contains_ny : Filter :=
  mkFilter "city" "contains"
    {| py_float := None; py_str := "ny"; py_str_items := Some (chars "ny") |}.

(** (age, ==, "abc") *)
Definition age_is_abc : Filter := mkFilter "age" "==" text_abc.

(** (when, ==, "abc") *)
Definition when_is_abc : Filter := mkFilter "when" "==" text_abc.

(** (when, ==, "2020-01-01 00:00:00") *)
Definition when_is_new_year : Filter := mkFilter "when" "==" text_new_year.

(** The first row of [visits], and no row of it. *)
Definition first_visit : DataFrame :=
  {| index := [0]%nat; columns := [("when", Datetime64 [Some new_year])] |}.

Definition no_visit : DataFrame :=
  {| index := []; columns := [("when", Datetime64 [])] |}.

(* ================================================================= *)
(** ** Operators and exceptions of one predicate *)

(** The six operators of the chain on a numeric column (lines 88-99). *)
Definition numeric_ops : list string :=
  ["=="; "!="; "<"; "<="; ">"; ">="].

(** The exception the loop body raises on a column of dtype [d], if any:
    only the chain over texts raises, when [re.compile] rejects the pattern
    of [contains] / [not contains] or when the operand of [in] / [not in]
    cannot be iterated. *)
Definition body_exception (re : string -> option (string -> bool))
           (f : Filter) (d : Dtype) : option PyExc :=
  if is_numeric_dtype d then None
  else if existsb (String.eqb (op f)) ["contains"; "not contains"] then
         match re (py_str (val f)) with
         | None => Some ReError
         | Some _ => None
         end
  else if existsb (String.eqb (op f)) ["in"; "not in"] then
         match py_str_items (val f) with
         | None => Some TypeError
         | Some _ => None
         end
  else None.

(** The column labels of a frame with their dtypes, in column order. *)
Definition schema (df : DataFrame) : list (string * Dtype) :=
  map (fun c => (fst c, dtype (snd c))) (columns df).

(** No cell of the column is missing. *)
Definition no_missing (s : Series) : bool :=
  forallb (fun c => negb (isna c)) (cells s).

(** The comparisons of the numeric chain other than [!=]. *)
Definition strict_ops : list string := ["=="; "<"; "<="; ">"; ">="].

(** Two floats that [==] holds of: both zero, or the same value. *)
Definition sf_same (x y : spec_float) : Prop :=
  match x, y with
  | S754_zero _, S754_zero _ => True
  | S754_infinity s, S754_infinity s' => s = s'
  | S754_finite s m e, S754_finite s' m' e' => s = s' /\ m = m' /\ e = e'
  | _, _ => False
  end.


(** No two elements of the list, at different positions, are related. *)
Inductive Pairwise {A : Type} (R : A -> A -> Prop) : list A -> Prop :=
| Pairwise_nil : Pairwise R []
| Pairwise_cons (a : A) (l : list A) :
    Forall (R a) l -> Pairwise R l -> Pairwise R (a :: l).

(** Two keys of different groups. *)
Definition other_group (a b : Cell) : Prop := key_eqb a b = false.

(* ================================================================= *)
(** ** The filter form ([build_filter_ui]) *)

(** Python built-ins applied to the values the widgets return; their
    results are not computed here. *)
Record Builtins : Type := mkBuiltins {
  str_of_float : float -> string;         (* str(x) of a float *)
  float_of_str : string -> option float;  (* float(s); None when it raises *)
  iter_str : string -> list string;       (* [str(c) for c in s] *)
  str_of_list : list string -> string     (* str(l) of a list of str *)
}.

(** ["%04d"] *)
Definition pad4 (n : nat) : string :=
  if (n <? 10)%nat then "000" ++ str_of_nat n
  else if (n <? 100)%nat then "00" ++ str_of_nat n
  else if (n <? 1000)%nat then "0" ++ str_of_nat n
  else str_of_nat n.

(** The operand a widget returns, as [apply_filters] will observe it. *)

(** [st.number_input] returns a float. *)
Definition of_float (B : Builtins) (x : float) : PyVal :=
  {| py_float := Some x; py_str := str_of_float B x; py_str_items := None |}.

(** [st.date_input] returns a [datetime.date]: [float] and iteration
    raise TypeError, [str] is the ISO format. *)
Definition of_date (d : nat * nat * nat) : PyVal :=
  let '(y, m, dd) := d in
  {| py_float := None;
     py_str := pad4 y ++ "-" ++ pad2 m ++ "-" ++ pad2 dd;
     py_str_items := None |}.

(** [st.text_input] returns a str. *)
Definition of_str (B : Builtins) (s : string) : PyVal :=
  {| py_float := float_of_str B s; py_str := s;
     py_str_items := Some (iter_str B s) |}.

(** [st.multiselect] returns a list of str; [float] of a list raises
    TypeError. *)
Definition of_list (B : Builtins) (l : list string) : PyVal :=
  {| py_float := None; py_str := str_of_list B l; py_str_items := Some l |}.

(** What the widgets return in one run of the script.  A selectbox
    returns the option at the chosen position. *)
Record Widgets : Type := mkWidgets {
  pick_column : nat;             (* st.selectbox("Column", df.columns) *)
  pick_operator : nat;           (* st.selectbox("Operator", ...) *)
  number_input : float;          (* st.number_input("Value") *)
  date_input : nat * nat * nat;  (* st.date_input("Date"): year, month, day *)
  text_input : string;           (* st.text_input("Value") *)
  multiselect : list string;     (* st.multiselect("Pick values") *)
  add_pressed : bool;            (* st.form_submit_button("Add filter") *)
  remove_pressed : nat -> bool;  (* st.button("Remove filter i+1") *)
  clear_pressed : bool           (* st.button("Clear all filters") *)
}.

(** Lines 42-59: the dict the form holds, [{"col", "op", "val"}].  The
    operator list and the value widget depend on the dtype of the column.
    With no column to pick the selectbox returns [None] and [df[col]]
    raises KeyError.  The widgets are taken to return a value of their
    kind: [st.number_input] a float, whatever minimum line 47 computed. *)
Definition form_filter (B : Builtins) (df : DataFrame) (w : Widgets)
  : Result Filter :=
  match nth_error (labels df) (pick_column w) with
  | None => Raise KeyError
  | Some c =>
      s <- getitem df c ;;
      if is_numeric_dtype (dtype s) then
        Ok (mkFilter c (nth (pick_operator w) numeric_ops "==")
              (of_float B (number_input w)))
      else if is_datetime64_any_dtype (dtype s) then
        Ok (mkFilter c (nth (pick_operator w) numeric_ops "==")
              (of_date (date_input w)))
      else
        let o := nth (pick_operator w) string_ops "==" in
        if existsb (String.eqb o) ["in"; "not in"] then
          Ok (mkFilter c o (of_list B (multiselect w)))
        else
          Ok (mkFilter c o (of_str B (text_input w)))
  end.

(** [st.experimental_rerun()] stops the run of the script and starts it
    again (in the Streamlit releases that have it); [Continue] is the run
    going on after [build_filter_ui]. *)
Inductive Flow : Set := Continue | Rerun.

(** The first position [j], [i <= j < i + n], whose button is pressed. *)
Fixpoint first_pressed (pressed : nat -> bool) (i n : nat) : option nat :=
  match n with
  | O => None
  | S n' => if pressed i then Some i else first_pressed pressed (S i) n'
  end.

(** [l.pop(i)], for [i] in range. *)
Definition pop {A : Type} (i : nat) (l : list A) : list A :=
  (firstn i l ++ skipn (S i) l)%list.

(** [build_filter_ui], lines 35-74: its effect on
    [st.session_state["filters"]] and on the run (the [st.write] calls
    that render the form and the list are left out).  The key "filters" is
    set before anything can raise.  An empty list is falsy: no remove or
    clear button is rendered for it. *)
Definition build_filter_ui (B : Builtins) (df : DataFrame) (w : Widgets)
           (st : SessionState) : Result Flow * SessionState :=
  let fs0 := session_filters st in
  match form_filter B df w with
  | Raise e => (Raise e, mkSession (Some fs0))
  | Ok f =>
      let fs1 := if add_pressed w then (fs0 ++ [f])%list else fs0 in
      match fs1 with
      | [] => (Ok Continue, mkSession (Some fs1))
      | _ :: _ =>
          match first_pressed (remove_pressed w) 0 (List.length fs1) with
          | Some i => (Ok Rerun, mkSession (Some (pop i fs1)))
          | None =>
              if clear_pressed w then (Ok Rerun, mkSession (Some []))
              else (Ok Continue, mkSession (Some fs1))
          end
      end
  end.

(* ================================================================= *)
(** ** The correlation of numeric columns ([DataFrame.corr]) *)

(** [np.isfinite]: neither NaN nor an infinity. *)
Definition isfinite (x : float) : bool := PrimFloat.is_finite x.

(** [num.to_numpy(dtype=float, na_value=np.nan)], column by column: the
    values as float64.  [corr] is called on the [np.number] columns only,
    int64 and float64; a datetime64 or object column, which this
    conversion refuses, has been removed by [select_dtypes]. *)
Definition to_numpy (num : DataFrame) : list (list float) :=
  map (fun c => match values (snd c) with
                | inl xs => xs
                | inr _ => []
                end) (columns num).

(** The variables of the inner loop of [nancorr] (pandas, [algos.pyx]):
    Welford's one-pass computation of the two sums of squared deviations
    from the mean and of the sum of the products of deviations. *)
Record Welford : Type := mkWelford {
  nobs : Z;
  meanx : float; meany : float;
  ssqdm_x : float; ssqdm_y : float;
  covxy : float
}.

(** [nobs = ssqdm_x = ssqdm_y = covxy = meanx = meany = 0] *)
Definition welford_zero : Welford :=
  {| nobs := 0; meanx := 0; meany := 0;
     ssqdm_x := 0; ssqdm_y := 0; covxy := 0 |}.

(** One turn of [for i in range(N)] on [vx = mat[i, xi]] and
    [vy = mat[i, yi]]; the row counts when both values are finite
    ([if mask[i, xi] and mask[i, yi]]).  [1 / nobs] is a division of
    floats, and every operation rounds to binary64 on its own (no fused
    multiply-add). *)
Definition observe (w : Welford) (v : float * float) : Welford :=
  let (vx, vy) := v in
  if isfinite vx && isfinite vy then
    let n := (nobs w + 1)%Z in
    let dx := (vx - meanx w)%float in
    let dy := (vy - meany w)%float in
    let mx := (meanx w + (1 / Float64.of_int64 n) * dx)%float in
    let my := (meany w + (1 / Float64.of_int64 n) * dy)%float in
    {| nobs := n; meanx := mx; meany := my;
       ssqdm_x := (ssqdm_x w + (vx - mx) * dx)%float;
       ssqdm_y := (ssqdm_y w + (vy - my) * dy)%float;
       covxy := (covxy w + (vx - mx) * dy)%float |}
  else w.

(** The coefficient of two columns, as [nancorr(mat, minp=1)] computes
    it from the rows [i] of [range(N)], here the pairs of values of the
    two columns: NaN when no row has both values, and when the divisor
    [sqrt(ssqdm_x * ssqdm_y)] is zero. *)
Definition pearson (xs ys : list float) : float :=
  let w := fold_left observe (combine xs ys) welford_zero in
  if (nobs w <? 1)%Z then nan
  else
    let divisor := sqrt (ssqdm_x w * ssqdm_y w) in
    if Float64.ne divisor 0 then (covxy w / divisor)%float else nan.

(** [l[i] = a], for [i] in range. *)
Fixpoint update {A : Type} (i : nat) (a : A) (l : list A) : list A :=
  match l, i with
  | [], _ => []
  | _ :: l', O => a :: l'
  | x :: l', S i' => x :: update i' a l'
  end.

(** [result[i, j] = v] and [result[i, j]] on a matrix held by rows. *)
Definition setitem (i j : nat) (v : float) (result : list (list float))
  : list (list float) :=
  update i (update j v (nth i result [])) result.


(** [nancorr]: for every column [xi] and every column [yi] up to [xi],
    the coefficient is computed once and stored at [xi, yi] and at
    [yi, xi].  [np.empty((K, K))] is taken as a matrix of zeros: every
    entry is assigned.  [mat] is held by columns. *)
Definition nancorr (mat : list (list float)) : list (list float) :=
  let K := List.length mat in
  fold_left
    (fun result xi =>
       fold_left
         (fun result yi =>
            let v := pearson (nth xi mat []) (nth yi mat []) in
            setitem yi xi v (setitem xi yi v result))
         (seq 0 (S xi)) result)
    (seq 0 K) (repeat (repeat 0%float K) K).

(** The frame [num.corr()] returns: the labels of [num] on both axes and
    the coefficients. *)
Record Correlation : Type := mkCorrelation {
  axis : list string;
  coefficients : list (list float)
}.

(** [num.corr()], with the defaults [method="pearson"], [min_periods=1]. *)
Definition corr (num : DataFrame) : Correlation :=
  {| axis := labels num; coefficients := nancorr (to_numpy num) |}.







(* ================================================================= *)
(** ** Charts ([viz_area], [correlation_matrix]) *)

(** What [px.bar] is given: the frame after aggregation, one row per
    group (key, value), or the frame as it is when no aggregation of the
    chain applied. *)
Inductive BarData : Type :=
| Aggregated (groups : list (Cell * Cell))
| Unaggregated (df : DataFrame).

Inductive Figure : Type :=
| BarFigure (data : BarData) (x y title : string)
    (* px.bar(plot_df, x=x, y=y, labels=..., title=title) *)
| ScatterFigure (df : DataFrame) (x y title : string)
    (* px.scatter(plot_df, x=x, y=y, title=title, labels=...) *)
| HistogramFigure (df : DataFrame) (x : string) (nbins : nat) (title : string)
    (* px.histogram(plot_df, x=x, nbins=nbins, title=title) *)
| CorrelationFigure (correl : Correlation).
    (* px.imshow(num.corr(), text_auto=".2f", aspect="auto") *)

(** The calls that render something. *)
Inductive Output : Type :=
| Subheader (text : string)        (* st.subheader *)
| Info (text : string)             (* st.info *)
| PlotlyChart (fig : Figure).      (* st.plotly_chart *)

(** The measure values of the rows of the group [k]. *)
Definition group_values (by_ measure : Series) (k : Cell) : Series :=
  series_take (map (fun c => key_eqb c k) (cells by_)) measure.

(** A count as a cell of the aggregated frame. *)
Definition counted (g : Cell * nat) : Cell * Cell :=
  (fst g, IntCell (Z.of_nat (snd g))).

Section Charts.

(** [mean], [sum] and [median] of the measure values of one group, as
    pandas reduces them; not computed here. *)
Variable reduce : string -> Series -> Cell.

(** Lines 130-134:
    [plot_df.groupby(x, dropna=False)[y].mean().reset_index()] and the
    like for [sum] and [median]. *)
Definition groupby_reduce (how : string) (df : DataFrame) (x y : string)
  : Result (list (Cell * Cell)) :=
  by_ <- getitem df x ;;
  measure <- getitem df y ;;
  if x =? y then Raise ValueError
  else Ok (map (fun k => (k, reduce how (group_values by_ measure k)))
             (group_keys by_)).

(** Lines 127: [y and is_numeric_dtype(plot_df[y])]. *)
Definition numeric_measure (df : DataFrame) (y : option string)
  : Result (option string) :=
  match y with
  | None => Ok None
  | Some y' =>
      if y' =? "" then Ok None
      else
        measure <- getitem df y' ;;
        Ok (if is_numeric_dtype (dtype measure) then Some y' else None)
  end.

(** [viz_area], lines 116-155, on what its three selectboxes ([x], [y],
    [chart_type]) and the aggregation selectbox return.  The selectbox of
    [x] offers the labels of [df], so [x] is one of them; a frame with no
    column, for which it returns [None], is not modelled. *)
Definition viz_area (df : DataFrame) (x : string) (y : option string)
           (chart_type agg : string) : Result (list Output) :=
  let header := Subheader "📊 Visualization" in
  if existsb (String.eqb chart_type) ["Bar (agg)"; "Line (agg)"] then
    m <- numeric_measure df y ;;
    match m with
    | Some y' =>
        data <-
          (if agg =? "mean" then
             g <- groupby_reduce "mean" df x y' ;; Ok (Aggregated g)
           else if agg =? "sum" then
             g <- groupby_reduce "sum" df x y' ;; Ok (Aggregated g)
           else if agg =? "median" then
             g <- groupby_reduce "median" df x y' ;; Ok (Aggregated g)
           else if agg =? "count" then
             g <- groupby_count df x y' ;; Ok (Aggregated (map counted g))
           else Ok (Unaggregated df)) ;;
        Ok [header;
            PlotlyChart
              (BarFigure data x y' (agg ++ " of " ++ y' ++ " by " ++ x))]
    | None =>
        g <- groupby_size df x ;;
        Ok [header;
            PlotlyChart
              (BarFigure (Aggregated (map counted g)) x "count"
                 ("Count by " ++ x))]
    end
  else if chart_type =? "Scatter" then
    match y with
    | None =>
        Ok [header;
            Info "For scatter please select an X and Y (both numeric recommended)."]
    | Some y' =>
        Ok [header;
            PlotlyChart (ScatterFigure df x y' (y' ++ " vs " ++ x))]
    end
  else if chart_type =? "Histogram" then
    s <- getitem df x ;;
    if is_numeric_dtype (dtype s) then
      Ok [header;
          PlotlyChart (HistogramFigure df x 30 ("Histogram of " ++ x))]
    else
      Ok [header;
          Info "Histogram is best for numeric columns. Consider choosing a numeric X."]
  else Ok [header].

End Charts.

(** [np.number]: the integer and floating dtypes; bool is not one. *)
Definition is_np_number (d : Dtype) : bool :=
  match d with
  | int64 | float64 => true
  | bool_ | datetime64 | object => false
  end.

(** [df.select_dtypes(include=[np.number])] *)
Definition select_dtypes_number (df : DataFrame) : DataFrame :=
  {| index := index df;
     columns := filter (fun c => is_np_number (dtype (snd c))) (columns df) |}.


(** [correlation_matrix], lines 157-162. *)
Definition correlation_matrix (df : DataFrame) : list Output :=
  let num := select_dtypes_number df in
  if (2 <=? List.length (columns num))%nat then
    [Subheader "🔗 Correlation matrix";
     PlotlyChart (CorrelationFigure (corr num))]
  else [].

(* ================================================================= *)
(** ** More concrete tables, filters and widget states *)

(** city = ["NYC", "la", missing, "NYC"], age = [10, 20, 30, missing] *)
Definition people : DataFrame :=
  {| index := [0; 1; 2; 3]%nat;
     columns := [("city", Object [Some "NYC"; Some "la"; None; Some "NYC"]);
                 ("age", F64 [10; 20; 30; nan]%float)] |}.

(** The built-ins on the operands of the examples: [str(20.0)], [float]
    of a text that is no number, the characters of an ASCII text, [str]
    of the empty list. *)
Definition example_builtins : Builtins :=
  {| str_of_float := fun _ => "20.0";
     float_of_str := fun _ => None;
     iter_str := chars;
     str_of_list := fun _ => "[]" |}.

(** [st.text_input] returned "la". *)
Definition text_la : PyVal :=
  {| py_float := None; py_str := "la"; py_str_items := Some (chars "la") |}.

(** (city, ==, "la"), (zip, ==, "abc"), (age, contains, "abc") *)
Definition city_is_la : Filter := mkFilter "city" "==" text_la.
Definition zip_is_abc : Filter := mkFilter "zip" "==" text_abc.
Definition age_contains_abc : Filter := mkFilter "age" "contains" text_abc.

(** The rows of [people] with age 20 and 30; the row with city "la"; no
    row. *)
Definition people_adults : DataFrame :=
  {| index := [1; 2]%nat;
     columns := [("city", Object [Some "la"; None]);
                 ("age", F64 [20; 30]%float)] |}.

Definition people_la : DataFrame :=
  {| index := [1]%nat;
     columns := [("city", Object [Some "la"]); ("age", F64 [20]%float)] |}.

Definition nobody : DataFrame :=
  {| index := []; columns := [("city", Object []); ("age", F64 [])] |}.

(** The form on [people]: column "age", operator [>=], value 20, "Add
    filter" pressed. *)
Definition add_age_at_least_20 : Widgets :=
  {| pick_column := 1; pick_operator := 5; number_input := 20%float;
     date_input := (2020, 1, 1)%nat; text_input := ""; multiselect := [];
     add_pressed := true; remove_pressed := fun _ => false;
     clear_pressed := false |}.

(** The form on [people]: column "city", operator [contains], value "(",
    which is not a regular expression. *)
Definition add_city_contains_paren : Widgets :=
  {| pick_column := 0; pick_operator := 2; number_input := 0%float;
     date_input := (2020, 1, 1)%nat; text_input := "("; multiselect := [];
     add_pressed := true; remove_pressed := fun _ => false;
     clear_pressed := false |}.

(** The form on [visits]: column "when", operator [<], date 2020-01-02. *)
Definition add_when_before : Widgets :=
  {| pick_column := 0; pick_operator := 2; number_input := 0%float;
     date_input := (2020, 1, 2)%nat; text_input := ""; multiselect := [];
     add_pressed := true; remove_pressed := fun _ => false;
     clear_pressed := false |}.

(** The button "Remove filter i+1" pressed, the form not submitted. *)
Definition press_remove (i : nat) : Widgets :=
  {| pick_column := 0; pick_operator := 0; number_input := 0%float;
     date_input := (2020, 1, 1)%nat; text_input := ""; multiselect := [];
     add_pressed := false; remove_pressed := Nat.eqb i;
     clear_pressed := false |}.


(* ================================================================= *)
(** * Properties *)

(** ** Boolean selection on lists *)

Lemma take_nil_r {A : Type} (m : list bool) : take m (@nil A) = [].
Proof. destruct m as [|[] m]; reflexivity. Qed.

Lemma take_map {A B : Type} (g : A -> B) (m : list bool) (xs : list A) :
  take m (map g xs) = map g (take m xs).
Proof.
  revert xs; induction m as [|b m IH]; intros [|x xs]; simpl; auto.
  destruct b; simpl; now rewrite IH.
Qed.

Lemma take_length_le {A : Type} (m : list bool) (xs : list A) :
  (List.length (take m xs) <= List.length xs)%nat.
Proof.
  revert xs; induction m as [|b m IH]; intros [|x xs]; simpl; try lia.
  destruct b; simpl; specialize (IH xs); lia.
Qed.

Lemma take_length_eq {A B : Type} (m : list bool) (xs : list A) (ys : list B) :
  List.length xs = List.length ys ->
  List.length (take m xs) = List.length (take m ys).
Proof.
  revert xs ys; induction m as [|b m IH]; intros [|x xs] [|y ys] H;
    simpl in *; try discriminate; auto.
  destruct b; simpl; auto.
Qed.

(** A selection that keeps all of [xs] still keeps everything after any
    other selection was applied to both the mask and [xs]. *)
Lemma take_fixed {A : Type} (m m0 : list bool) (xs : list A) :
  take m0 xs = xs -> take (take m m0) (take m xs) = take m xs.
Proof.
  revert m m0; induction xs as [|x xs IH]; intros m m0 H.
  - now rewrite !take_nil_r.
  - destruct m0 as [|b0 m0]; [discriminate|].
    destruct b0; simpl in H.
    + injection H as H.
      destruct m as [|b m]; [reflexivity|].
      destruct b; simpl; [f_equal|]; auto.
    + exfalso. pose proof (take_length_le m0 xs) as L.
      rewrite H in L. simpl in L. lia.
Qed.

Lemma take_self_fixed {A : Type} (m : list bool) (xs : list A) :
  take (take m m) (take m xs) = take m xs.
Proof.
  revert xs; induction m as [|b m IH]; intros xs; [reflexivity|].
  destruct xs as [|x xs]; [now rewrite !take_nil_r|].
  destruct b; simpl; [f_equal|]; auto.
Qed.

Lemma take_take {A : Type} (m1 m2 : list bool) (xs : list A) :
  take m2 (take m1 xs) = take (compose_mask m1 m2) xs.
Proof.
  revert m2 xs; induction m1 as [|b1 m1 IH]; intros m2 xs.
  - simpl. now rewrite take_nil_r.
  - destruct xs as [|x xs].
    + simpl. now rewrite !take_nil_r.
    + destruct b1; simpl.
      * destruct m2 as [|b2 m2]; simpl; [reflexivity|].
        destruct b2; now rewrite IH.
      * apply IH.
Qed.

Lemma Subseq_refl {A : Type} (l : list A) : Subseq l l.
Proof. induction l; [apply Subseq_nil | apply Subseq_keep; assumption]. Qed.

Lemma Subseq_take {A : Type} (m : list bool) (xs : list A) :
  Subseq (take m xs) xs.
Proof.
  revert m; induction xs as [|x xs IH]; intros m.
  - rewrite take_nil_r. apply Subseq_nil.
  - destruct m as [|[] m]; simpl.
    + apply Subseq_drop. apply (IH []).
    + apply Subseq_keep, IH.
    + apply Subseq_drop, IH.
Qed.

Lemma Subseq_trans {A : Type} (l1 l2 l3 : list A) :
  Subseq l1 l2 -> Subseq l2 l3 -> Subseq l1 l3.
Proof.
  intros H12 H23; revert l1 H12.
  induction H23 as [|x l2 l3 H IH|x l2 l3 H IH]; intros l1 H12.
  - assumption.
  - apply Subseq_drop; auto.
  - inversion H12; subst; [apply Subseq_drop | apply Subseq_keep]; auto.
Qed.

(** ** Selection on series and frames *)

Lemma values_numeric (s : Series) :
  is_numeric_dtype (dtype s) = true <-> exists xs, values s = inl xs.
Proof.
  destruct s; simpl; split; intros H; try discriminate; eauto;
    destruct H as [ys H]; discriminate.
Qed.

Lemma dtype_series_take (m : list bool) (s : Series) :
  dtype (series_take m s) = dtype s.
Proof. destruct s; reflexivity. Qed.

Lemma series_take_take (m1 m2 : list bool) (s : Series) :
  series_take m2 (series_take m1 s) = series_take (compose_mask m1 m2) s.
Proof. destruct s; simpl; now rewrite take_take. Qed.

Lemma series_take_fixed (m m0 : list bool) (s : Series) :
  series_take m0 s = s ->
  series_take (take m m0) (series_take m s) = series_take m s.
Proof.
  destruct s; simpl; intros H; injection H as H; now rewrite take_fixed.
Qed.

Lemma series_take_self_fixed (m : list bool) (s : Series) :
  series_take (take m m) (series_take m s) = series_take m s.
Proof. destruct s; simpl; now rewrite take_self_fixed. Qed.

Lemma cells_series_take (m : list bool) (s : Series) :
  cells (series_take m s) = take m (cells s).
Proof. destruct s; simpl; now rewrite take_map. Qed.

Lemma getitem_mask_take (m1 m2 : list bool) (T : DataFrame) :
  getitem_mask m2 (getitem_mask m1 T) = getitem_mask (compose_mask m1 m2) T.
Proof.
  unfold getitem_mask; simpl. rewrite take_take. f_equal.
  rewrite map_map. apply map_ext. intros [name s]; simpl.
  now rewrite series_take_take.
Qed.

Lemma labels_getitem_mask (m : list bool) (T : DataFrame) :
  labels (getitem_mask m T) = labels T.
Proof. unfold labels, getitem_mask; simpl. now rewrite map_map. Qed.

Lemma dtypes_getitem_mask (m : list bool) (T : DataFrame) :
  dtypes (getitem_mask m T) = dtypes T.
Proof.
  unfold dtypes, getitem_mask; simpl. rewrite map_map.
  apply map_ext. intros c; simpl. apply dtype_series_take.
Qed.

Lemma filter_label_map (g : Series -> Series) (name : string)
      (cols : list (string * Series)) :
  filter (fun c => String.eqb (fst c) name)
    (map (fun c => (fst c, g (snd c))) cols)
  = map (fun c => (fst c, g (snd c)))
        (filter (fun c => String.eqb (fst c) name) cols).
Proof.
  induction cols as [|c cols IH]; simpl; [reflexivity|].
  destruct (String.eqb (fst c) name); simpl; now rewrite IH.
Qed.

(** A label selects from the masked frame the masked column. *)
Lemma getitem_getitem_mask (m : list bool) (T : DataFrame) (name : string) :
  getitem (getitem_mask m T) name
  = (s <- getitem T name ;; Ok (series_take m s)).
Proof.
  unfold getitem, getitem_mask; simpl. rewrite filter_label_map.
  destruct (filter _ (columns T)) as [|c [|c' rest]]; reflexivity.
Qed.

Lemma aligned_getitem_mask (m : list bool) (T : DataFrame) :
  aligned T = true -> aligned (getitem_mask m T) = true.
Proof.
  unfold aligned, getitem_mask; simpl. rewrite !forallb_forall.
  intros H c Hc. apply in_map_iff in Hc as [c0 [<- Hc0]]. simpl.
  specialize (H c0 Hc0). apply Nat.eqb_eq in H. apply Nat.eqb_eq.
  destruct (snd c0); simpl in *; now apply take_length_eq.
Qed.

Lemma aligned_getitem (T : DataFrame) (name : string) (s : Series) :
  aligned T = true -> getitem T name = Ok s -> size s = List.length (index T).
Proof.
  unfold aligned, getitem. rewrite forallb_forall. intros H G.
  destruct (filter _ (columns T)) as [|c [|c' rest]] eqn:E; try discriminate.
  injection G as <-. apply Nat.eqb_eq, H.
  assert (In c (filter (fun c => String.eqb (fst c) name) (columns T))) as I
      by (rewrite E; now left).
  now apply filter_In in I.
Qed.

Lemma zip_rows_take (m : list bool) (idx : list nat) (cols : list (list Cell)) :
  zip_rows (take m idx) (map (take m) cols) = take m (zip_rows idx cols).
Proof.
  revert idx cols; induction m as [|b m IH]; intros idx cols.
  - destruct idx; reflexivity.
  - destruct idx as [|i idx]; [reflexivity|].
    assert (map (@tl Cell) (map (take (true :: m)) cols)
            = map (take m) (map (@tl Cell) cols)) as Tt.
    { rewrite !map_map. apply map_ext. intros [|c col]; simpl;
        [now rewrite take_nil_r | reflexivity]. }
    assert (map (take (false :: m)) cols = map (take m) (map (@tl Cell) cols))
      as Tf.
    { rewrite map_map. apply map_ext. intros [|c col]; simpl;
        [now rewrite take_nil_r | reflexivity]. }
    destruct b.
    + change (take (true :: m) (i :: idx)) with (i :: take m idx).
      cbn [zip_rows]. rewrite Tt, IH.
      change (take (true :: m) ((i, map (@hd_error Cell) cols)
                                  :: zip_rows idx (map (@tl Cell) cols)))
        with ((i, map (@hd_error Cell) cols)
                :: take m (zip_rows idx (map (@tl Cell) cols))).
      f_equal. f_equal.
      rewrite map_map. apply map_ext. intros [|c col]; reflexivity.
    + change (take (false :: m) (i :: idx)) with (take m idx).
      rewrite Tf. apply IH.
Qed.

(** The rows of a masked frame are the masked rows. *)
Lemma rows_getitem_mask (m : list bool) (T : DataFrame) :
  rows (getitem_mask m T) = take m (rows T).
Proof.
  unfold rows, getitem_mask; simpl. rewrite <- zip_rows_take. f_equal.
  rewrite !map_map. apply map_ext. intros c; simpl. apply cells_series_take.
Qed.

Lemma Selected_trans (T1 T2 T3 : DataFrame) :
  Selected T1 T2 -> Selected T2 T3 -> Selected T1 T3.
Proof.
  intros [|m1] [|m2]; try constructor.
  rewrite getitem_mask_take. constructor.
Qed.

(* ================================================================= *)
(** ** The evaluator *)

Section EvaluatorFacts.

Variable re : string -> option (string -> bool).

(** *** The heap only grows *)

Lemma nth_error_grow (h ext : Heap) (r : Ref) (T : DataFrame) :
  nth_error h r = Some T -> nth_error (h ++ ext)%list r = Some T.
Proof.
  intros H. rewrite nth_error_app1; [assumption|].
  apply nth_error_Some. congruence.
Qed.

Lemma nth_error_fresh (h : Heap) (T : DataFrame) :
  nth_error (h ++ [T])%list (List.length h) = Some T.
Proof. rewrite nth_error_app2, Nat.sub_diag by lia. reflexivity. Qed.

(** One turn of the loop on a heap where [out] denotes [T]. *)
Lemma loop_body_run (f : Filter) (out : Ref) (h : Heap) (T : DataFrame) :
  nth_error h out = Some T ->
  loop_body re f out h =
    match getitem T (col f) with
    | Raise e => (Raise e, h)
    | Ok s =>
        match row_mask re f s with
        | Raise e => (Raise e, h)
        | Ok None => (Ok out, h)
        | Ok (Some m) => (Ok (List.length h), (h ++ [getitem_mask m T])%list)
        end
    end.
Proof.
  intros H. unfold loop_body, bind, deref, lift. rewrite H.
  destruct (getitem T (col f)) as [s|e]; [|reflexivity].
  destruct (row_mask re f s) as [[m|]|e]; reflexivity.
Qed.

(** The loop computes [select_all] and touches no existing object. *)
Lemma for_each_run (fs : list Filter) :
  forall (out : Ref) (h : Heap) (T : DataFrame),
    nth_error h out = Some T ->
    exists ext : Heap,
      snd (for_each re fs out h) = (h ++ ext)%list /\
      match select_all re fs T with
      | Ok T' =>
          exists r : Ref,
            fst (for_each re fs out h) = Ok r /\
            nth_error (h ++ ext)%list r = Some T' /\
            (r = out \/ List.length h <= r)%nat
      | Raise e => fst (for_each re fs out h) = Raise e
      end.
Proof.
  induction fs as [|f fs IH]; intros out h T H.
  - exists []. rewrite app_nil_r. simpl. split; [reflexivity|].
    exists out. auto.
  - cbn [for_each select_all]. unfold bind.
    rewrite (loop_body_run f out h T H). unfold select.
    destruct (getitem T (col f)) as [s|e]; cbn [rbind];
      [|exists []; rewrite app_nil_r; auto].
    destruct (row_mask re f s) as [[m|]|e]; cbn [rbind].
    + destruct (IH (List.length h) (h ++ [getitem_mask m T])%list
                   (getitem_mask m T) (nth_error_fresh h _))
        as [ext [E R]].
      exists ([getitem_mask m T] ++ ext)%list.
      rewrite app_assoc. split; [assumption|].
      destruct (select_all re fs (getitem_mask m T)) as [T'|e]; [|assumption].
      destruct R as [r [R1 [R2 R3]]]. exists r. repeat split; auto.
      right. rewrite length_app in R3. simpl in R3. lia.
    + destruct (IH out h T H) as [ext [E R]]. exists ext.
      split; assumption.
    + exists []. rewrite app_nil_r. auto.
Qed.

Lemma apply_filters_run (st : SessionState) (df : Ref) (h : Heap)
      (T : DataFrame) :
  nth_error h df = Some T ->
  exists ext : Heap,
    snd (apply_filters re st df h) = (h ++ ext)%list /\
    match select_all re (session_filters st) T with
    | Ok T' =>
        exists r : Ref,
          fst (apply_filters re st df h) = Ok r /\
          nth_error (h ++ ext)%list r = Some T' /\
          (List.length h <= r)%nat
    | Raise e => fst (apply_filters re st df h) = Raise e
    end.
Proof.
  intros H. unfold apply_filters, copy, bind, deref, alloc. rewrite H.
  destruct (for_each_run (session_filters st) (List.length h)
              (h ++ [T])%list T (nth_error_fresh h T)) as [ext [E R]].
  exists ([T] ++ ext)%list. rewrite app_assoc. split; [assumption|].
  destruct (select_all re (session_filters st) T) as [T'|e]; [|assumption].
  destruct R as [r [R1 [R2 R3]]]. exists r. repeat split; auto.
  rewrite length_app in R3. simpl in R3. lia.
Qed.

(** [evaluate] is the loop on frame values. *)
Lemma evaluate_select_all (F : list Filter) (T : DataFrame) :
  evaluate re T F = select_all re F T.
Proof.
  unfold evaluate.
  destruct (apply_filters_run (mkSession (Some F)) 0 [T] T eq_refl)
    as [ext [E R]].
  change (session_filters (mkSession (Some F))) with F in R.
  unfold bind.
  destruct (apply_filters re (mkSession (Some F)) 0 [T]) as [res h'].
  simpl in E, R. subst h'.
  destruct (select_all re F T) as [T'|e].
  - destruct R as [r [R1 [R2 _]]]. subst res. unfold deref.
    rewrite R2. reflexivity.
  - subst res. reflexivity.
Qed.

(** *** Results are selections of the input *)

Lemma select_Selected (f : Filter) (T T' : DataFrame) :
  select re f T = Ok T' -> Selected T T'.
Proof.
  unfold select. destruct (getitem T (col f)) as [s|e]; [|discriminate].
  cbn [rbind]. destruct (row_mask re f s) as [[m|]|e]; cbn [rbind];
    intros H; try discriminate; injection H as <-; constructor.
Qed.

Lemma select_all_Selected (F : list Filter) :
  forall T T', select_all re F T = Ok T' -> Selected T T'.
Proof.
  induction F as [|f F IH]; intros T T' H.
  - injection H as <-. constructor.
  - cbn [select_all] in H.
    destruct (select re f T) as [T1|e] eqn:E; [|discriminate].
    cbn [rbind] in H.
    eapply Selected_trans; eauto using select_Selected.
Qed.

(** The evaluated table is an aligned frame when the input is. *)
Lemma evaluate_aligned (F : list Filter) (T T' : DataFrame) :
  aligned T = true -> evaluate re T F = Ok T' -> aligned T' = true.
Proof.
  rewrite evaluate_select_all. intros A H.
  apply select_all_Selected in H. destruct H as [|m];
    [assumption | now apply aligned_getitem_mask].
Qed.

(** C2: evaluating the empty filter set on a table [T] returns a table
    equal to [T]: same row labels, same columns with the same values, in
    the same order. *)
Theorem evaluate_empty (T : DataFrame) : evaluate re T [] = Ok T.
Proof. reflexivity. Qed.

(** The same when the session has no "filters" key at all. *)
Lemma apply_filters_no_key (T : DataFrame) :
  apply_filters re (mkSession None) 0 [T] = (Ok 1%nat, [T; T]).
Proof. reflexivity. Qed.

(** C7: on age = [10, 20, 30, missing] the single predicate
    (age, >=, 20) returns exactly the rows with age 20 and age 30; the
    row whose age is missing is not returned. *)
Theorem evaluate_age_at_least_20 :
  evaluate re ages [mkFilter "age" ">=" number_20]
  = Ok {| index := [1; 2]%nat;
          columns := [("age", F64 [20; 30]%float)] |}.
Proof. reflexivity. Qed.

(** C8: [apply_filters] never mutates its input.  Run on any heap in
    which [df] refers to a frame, it leaves every frame of that heap as
    it was, [df] included, whether it returns or raises; and the
    reference it returns is to a frame object that did not exist before
    the call, holding the evaluated table. *)
Theorem apply_filters_never_mutates
        (st : SessionState) (df : Ref) (h : Heap) (T : DataFrame) :
  nth_error h df = Some T ->
  (forall (r : Ref) (U : DataFrame),
      nth_error h r = Some U ->
      nth_error (snd (apply_filters re st df h)) r = Some U) /\
  (forall out : Ref,
      fst (apply_filters re st df h) = Ok out ->
      out <> df /\
      nth_error h out = None /\
      exists T' : DataFrame,
        nth_error (snd (apply_filters re st df h)) out = Some T' /\
        evaluate re T (session_filters st) = Ok T').
Proof.
  intros H. destruct (apply_filters_run st df h T H) as [ext [E R]].
  split.
  - intros r U HU. rewrite E. now apply nth_error_grow.
  - intros out Hout. rewrite evaluate_select_all.
    destruct (select_all re (session_filters st) T) as [T'|e];
      [|congruence].
    destruct R as [r [R1 [R2 R3]]].
    assert (out = r) by congruence. subst r.
    assert (df < List.length h)%nat
      by (apply nth_error_Some; congruence).
    repeat split.
    + lia.
    + now apply nth_error_None.
    + exists T'. rewrite E. auto.
Qed.

(** C10: the evaluated table consists of rows of [T], each at most as
    often as in [T] and in their original relative order (a subsequence
    of the rows of [T], cell for cell and label for label), under the
    same column labels in the same order and with the same dtypes. *)
Theorem evaluate_keeps_rows_in_order (F : list Filter) (T T' : DataFrame) :
  evaluate re T F = Ok T' ->
  Subseq (rows T') (rows T) /\
  labels T' = labels T /\
  dtypes T' = dtypes T.
Proof.
  rewrite evaluate_select_all. intros H.
  apply select_all_Selected in H. destruct H as [|m].
  - repeat split. apply Subseq_refl.
  - rewrite rows_getitem_mask, labels_getitem_mask, dtypes_getitem_mask.
    repeat split. apply Subseq_take.
Qed.

(** *** Masks commute with selection, except through the datetime text *)

(** Walk down an [if op == ... elif ...] chain: close the branch taken with
    [tac], go on with the chain that is left. *)
Ltac chain_of_ops tac :=
  repeat (match goal with
          | |- context [if String.eqb ?a ?b then _ else _] =>
              destruct (String.eqb a b)
          end; [tac|]).

Lemma numeric_mask_take (o : string) (v : float) (m : list bool)
      (xs : list float) :
  numeric_mask o v (take m xs) = option_map (take m) (numeric_mask o v xs).
Proof.
  unfold numeric_mask.
  chain_of_ops ltac:(simpl; now rewrite take_map).
  reflexivity.
Qed.

Lemma str_contains_take (pat : string) (m : list bool) (s : list string) :
  str_contains re pat (take m s)
  = (r <- str_contains re pat s ;; Ok (take m r)).
Proof.
  unfold str_contains. destruct (re pat); simpl; [|reflexivity].
  now rewrite take_map.
Qed.

Lemma string_mask_take (o : string) (v : PyVal) (m : list bool)
      (s : list string) :
  string_mask re o v (take m s)
  = (r <- string_mask re o v s ;; Ok (option_map (take m) r)).
Proof.
  unfold string_mask, isin, invert.
  chain_of_ops ltac:(rewrite ?str_contains_take;
                     try destruct (str_contains re (py_str v) s);
                     try destruct (py_str_items v);
                     simpl; rewrite ?take_map; reflexivity).
  reflexivity.
Qed.

(** Outside the six operators the chain over texts does nothing. *)
Lemma string_mask_other (o : string) (v : PyVal) (s : list string) :
  existsb (String.eqb o) string_ops = false ->
  string_mask re o v s = Ok None.
Proof.
  unfold string_ops, string_mask. simpl. intros H.
  repeat (apply orb_false_elim in H as [-> H]). reflexivity.
Qed.

Lemma row_mask_take (f : Filter) (m : list bool) (s : Series) :
  is_datetime64_any_dtype (dtype s)
    && existsb (String.eqb (op f)) string_ops = false ->
  row_mask re f (series_take m s)
  = (r <- row_mask re f s ;; Ok (option_map (take m) r)).
Proof.
  intros D. unfold row_mask. destruct s; simpl in *.
  - rewrite <- take_map. destruct (py_float (val f)); [|reflexivity].
    simpl. now rewrite numeric_mask_take.
  - destruct (py_float (val f)); [|reflexivity].
    simpl. now rewrite numeric_mask_take.
  - rewrite <- take_map. destruct (py_float (val f)); [|reflexivity].
    simpl. now rewrite numeric_mask_take.
  - now rewrite !string_mask_other.
  - rewrite <- take_map. apply string_mask_take.
Qed.

Lemma reads_datetime_text_mask (m : list bool) (T : DataFrame) (f : Filter) :
  reads_datetime_text (getitem_mask m T) f = reads_datetime_text T f.
Proof.
  unfold reads_datetime_text. rewrite getitem_getitem_mask.
  destruct (getitem T (col f)) as [s|e]; simpl; [|reflexivity].
  now rewrite dtype_series_take.
Qed.

Lemma reads_datetime_text_Selected (T T' : DataFrame) (f : Filter) :
  Selected T T' -> reads_datetime_text T' f = reads_datetime_text T f.
Proof. intros [|m]; [reflexivity | apply reads_datetime_text_mask]. Qed.

(** One turn of the loop on a selection of [T], from the turn on [T]. *)
Lemma select_getitem_mask (f : Filter) (m : list bool) (T : DataFrame) :
  reads_datetime_text T f = false ->
  select re f (getitem_mask m T) =
    match getitem T (col f) with
    | Raise e => Raise e
    | Ok s =>
        match row_mask re f s with
        | Raise e => Raise e
        | Ok None => Ok (getitem_mask m T)
        | Ok (Some m0) => Ok (getitem_mask (take m m0) (getitem_mask m T))
        end
    end.
Proof.
  unfold reads_datetime_text, select. rewrite getitem_getitem_mask.
  destruct (getitem T (col f)) as [s|e]; [|reflexivity].
  intros D. cbn [rbind]. rewrite (row_mask_take f m s D).
  destruct (row_mask re f s) as [[m0|]|e]; reflexivity.
Qed.

Lemma map_fixed_pointwise {A : Type} (g : A -> A) (l : list A) :
  map g l = l -> forall a, In a l -> g a = a.
Proof.
  induction l as [|x l IH]; simpl; intros H a I; [contradiction|].
  injection H as Hx Hl. destruct I as [<-|I]; auto.
Qed.

Lemma getitem_mask_self_fixed (m : list bool) (T : DataFrame) :
  getitem_mask (take m m) (getitem_mask m T) = getitem_mask m T.
Proof.
  unfold getitem_mask; simpl. rewrite take_self_fixed. f_equal.
  rewrite map_map. apply map_ext. intros c; simpl.
  now rewrite series_take_self_fixed.
Qed.

Lemma getitem_mask_fixed (m m0 : list bool) (T : DataFrame) :
  getitem_mask m0 T = T ->
  getitem_mask (take m m0) (getitem_mask m T) = getitem_mask m T.
Proof.
  destruct T as [idx cols]. unfold getitem_mask; simpl. intros H.
  injection H as Hi Hc. rewrite (take_fixed m m0 idx Hi). f_equal.
  rewrite map_map. apply map_ext_in. intros c I; simpl.
  pose proof (map_fixed_pointwise _ cols Hc c I) as Hs.
  destruct c as [name s]; simpl in *. injection Hs as Hs.
  now rewrite series_take_fixed.
Qed.

(** A filter that was just applied selects everything. *)
Lemma select_settles (f : Filter) (T T1 : DataFrame) :
  reads_datetime_text T f = false ->
  select re f T = Ok T1 -> select re f T1 = Ok T1.
Proof.
  intros D H. pose proof H as H0. unfold select in H.
  destruct (getitem T (col f)) as [s|e] eqn:G; [|discriminate].
  cbn [rbind] in H.
  destruct (row_mask re f s) as [[m0|]|e] eqn:R; cbn [rbind] in H;
    try discriminate; injection H as <-; [|assumption].
  rewrite (select_getitem_mask f m0 T D), G, R.
  now rewrite getitem_mask_self_fixed.
Qed.

(** A filter that selects everything still does on any selection. *)
Lemma select_stays_settled (f : Filter) (T T' : DataFrame) :
  reads_datetime_text T f = false ->
  select re f T = Ok T -> Selected T T' -> select re f T' = Ok T'.
Proof.
  intros D H [|m]; [assumption|].
  rewrite (select_getitem_mask f m T D). unfold select in H.
  destruct (getitem T (col f)) as [s|e]; [|discriminate].
  cbn [rbind] in H.
  destruct (row_mask re f s) as [[m0|]|e]; cbn [rbind] in H;
    try discriminate; [|reflexivity].
  injection H as H. now rewrite getitem_mask_fixed.
Qed.

Lemma select_all_settles (F : list Filter) :
  forall T T',
    Forall (fun f => reads_datetime_text T f = false) F ->
    select_all re F T = Ok T' ->
    Forall (fun f => select re f T' = Ok T') F.
Proof.
  induction F as [|f F IH]; intros T T' D H; [constructor|].
  cbn [select_all] in H. inversion D as [|? ? Df DF]; subst.
  destruct (select re f T) as [T1|e] eqn:E; [|discriminate].
  cbn [rbind] in H.
  pose proof (select_Selected f T T1 E) as S1.
  pose proof (select_all_Selected F T1 T' H) as S2.
  constructor.
  - apply select_stays_settled with (T := T1); auto.
    + now rewrite (reads_datetime_text_Selected T T1 f S1).
    + now apply select_settles with (T := T).
  - apply IH with (T := T1); auto.
    eapply Forall_impl; [|exact DF]. intros g Hg. simpl in Hg.
    now rewrite (reads_datetime_text_Selected T T1 g S1).
Qed.

Lemma select_all_of_settled (F : list Filter) (T : DataFrame) :
  Forall (fun f => select re f T = Ok T) F -> select_all re F T = Ok T.
Proof.
  induction 1 as [|f F Hf HF IH]; [reflexivity|].
  cbn [select_all]. rewrite Hf. exact IH.
Qed.

(** C3, for the filter sets in which no predicate compares the texts
    rendered from a datetime64 column: applying [F] to the already
    filtered table changes nothing, and an evaluation that raises does so
    again; [evaluate(evaluate(T, F), F) = evaluate(T, F)]. *)
Theorem evaluate_idempotent (F : list Filter) (T : DataFrame) :
  Forall (fun f => reads_datetime_text T f = false) F ->
  (T' <- evaluate re T F ;; evaluate re T' F) = evaluate re T F.
Proof.
  intros D. destruct (evaluate re T F) as [T'|e] eqn:E; [|reflexivity].
  cbn [rbind]. rewrite evaluate_select_all in *.
  apply select_all_of_settled. now apply select_all_settles with (T := T).
Qed.

(** *** A numeric filter whose operand does not convert *)

Lemma select_all_app (F1 F2 : list Filter) (T : DataFrame) :
  select_all re (F1 ++ F2)%list T
  = (T1 <- select_all re F1 T ;; select_all re F2 T1).
Proof.
  revert T; induction F1 as [|f F1 IH]; intros T; [reflexivity|].
  cbn [app select_all]. destruct (select re f T) as [T1|e];
    [apply IH | reflexivity].
Qed.

Lemma getitem_Selected (T T' : DataFrame) (name : string) (s : Series) :
  Selected T T' -> getitem T name = Ok s ->
  exists s', getitem T' name = Ok s' /\ dtype s' = dtype s.
Proof.
  intros [|m] G; [eauto|].
  rewrite getitem_getitem_mask, G. cbn [rbind].
  eauto using dtype_series_take.
Qed.

Lemma kind_of_Numeric (d : Dtype) :
  kind_of d = Numeric <-> is_numeric_dtype d = true.
Proof. unfold kind_of; destruct d; simpl; split; congruence. Qed.

Lemma row_mask_unconvertible (f : Filter) (s : Series) :
  kind_of (dtype s) = Numeric -> py_float (val f) = None ->
  row_mask re f s = Ok None.
Proof.
  intros K P. apply kind_of_Numeric, values_numeric in K as [xs V].
  unfold row_mask. now rewrite V, P.
Qed.

(** C1, for numeric columns: a predicate of the filter set on a numeric
    column whose operand [float] cannot convert is skipped.  The
    evaluation of the whole set, result or exception, is that of the set
    without this predicate, wherever in the set it stands: it removes no
    row and raises nothing, and the other predicates apply as they do
    without it. *)
Theorem unconvertible_numeric_filter_skipped
        (F1 F2 : list Filter) (f : Filter) (T : DataFrame) (s : Series) :
  getitem T (col f) = Ok s ->
  kind_of (dtype s) = Numeric ->
  py_float (val f) = None ->
  evaluate re T (F1 ++ f :: F2)%list = evaluate re T (F1 ++ F2)%list.
Proof.
  intros G K P. rewrite !evaluate_select_all, !select_all_app.
  destruct (select_all re F1 T) as [T1|e] eqn:E; [|reflexivity].
  cbn [rbind select_all].
  destruct (getitem_Selected T T1 (col f) s
              (select_all_Selected F1 T T1 E) G) as [s1 [G1 D1]].
  unfold select at 1. rewrite G1. cbn [rbind].
  rewrite row_mask_unconvertible by congruence. reflexivity.
Qed.

(** *** Equality and its negation *)

Lemma take_invert_Permutation {A : Type} (m : list bool) (l : list A) :
  List.length m = List.length l ->
  Permutation (take m l ++ take (invert m) l)%list l.
Proof.
  revert l; induction m as [|b m IH]; intros [|x l] H; simpl in *;
    try discriminate; [constructor|].
  injection H as H. specialize (IH l H). destruct b; simpl.
  - now constructor.
  - apply Permutation_sym, Permutation_cons_app. now apply Permutation_sym.
Qed.

(** What the loop body reads of a column is read cell by cell (the
    format of a datetime64 column being fixed by the column). *)
Lemma values_by_cell (s : Series) :
  (exists g : Cell -> float, values s = inl (map g (cells s))) \/
  (exists g : Cell -> string, values s = inr (map g (cells s))).
Proof.
  destruct s as [xs|xs|xs|xs|xs]; simpl.
  - left. exists (fun c => match c with
                           | IntCell z => Float64.of_int64 z
                           | _ => nan
                           end).
    now rewrite map_map.
  - left. exists (fun c => match c with FloatCell x => x | _ => nan end).
    now rewrite map_map, map_id.
  - left. exists (fun c => match c with
                           | BoolCell b => Float64.of_bool b
                           | _ => nan
                           end).
    now rewrite map_map.
  - right. unfold format_datetime64.
    exists (fun c => match c with
                     | TimeCell (Some t) =>
                         if is_dates_only xs then fmt_date t
                         else fmt_date t ++ " " ++ fmt_time t
                     | _ => "NaT"
                     end).
    now rewrite map_map.
  - right. exists (fun c => match c with
                            | ObjectCell x => str_of_object x
                            | _ => ""
                            end).
    now rewrite map_map.
Qed.

(** The masks of [==] and [!=] test each cell of the column by one
    predicate and by its negation. *)
Lemma row_mask_eq_ne_by_cell (c : string) (v : PyVal) (s : Series) :
  (kind_of (dtype s) = Numeric -> py_float v <> None) ->
  exists p : Cell -> bool,
    row_mask re (mkFilter c "==" v) s = Ok (Some (map p (cells s))) /\
    row_mask re (mkFilter c "!=" v) s
    = Ok (Some (invert (map p (cells s)))).
Proof.
  intros P. unfold row_mask. cbn [op val].
  destruct (values_by_cell s) as [[g V]|[g V]]; rewrite V.
  - destruct (py_float v) as [x|].
    + exists (fun k => Float64.eq (g k) x). split.
      * cbn. now rewrite map_map.
      * unfold invert, Float64.ne. cbn. now rewrite !map_map.
    + exfalso. apply P; [|reflexivity].
      apply kind_of_Numeric, values_numeric. eauto.
  - exists (fun k => String.eqb (g k) (py_str v)). split.
    + cbn. now rewrite map_map.
    + unfold invert. cbn. now rewrite !map_map.
Qed.

Lemma zip_rows_column (idx : list nat) (cols : list (list Cell)) (j : nat)
      (cs : list Cell) :
  nth_error cols j = Some cs -> List.length cs = List.length idx ->
  map (fun r : Row => nth j (snd r) None) (zip_rows idx cols) = map Some cs.
Proof.
  revert cols cs; induction idx as [|i idx IH]; intros cols cs H L.
  - destruct cs; [reflexivity | discriminate].
  - destruct cs as [|x cs]; [discriminate|]. simpl. f_equal.
    + apply nth_error_nth.
      now rewrite nth_error_map, H.
    + apply IH; [|simpl in L; lia].
      now rewrite nth_error_map, H.
Qed.

(** The cells of a column are found in the rows, at the position of the
    column. *)
Lemma rows_column (T : DataFrame) (c : string) (s : Series) :
  getitem T c = Ok s -> aligned T = true ->
  exists j : nat,
    map (fun r : Row => nth j (snd r) None) (rows T) = map Some (cells s).
Proof.
  intros G A. pose proof (aligned_getitem T c s A G) as L.
  unfold getitem in G.
  destruct (filter _ (columns T)) as [|k [|k' rest]] eqn:E; try discriminate.
  injection G as <-.
  assert (In k (columns T)) as I.
  { assert (In k (filter (fun c0 => String.eqb (fst c0) c) (columns T)))
      as I by (rewrite E; now left).
    now apply filter_In in I. }
  apply In_nth_error in I as [j I]. exists j. unfold rows.
  apply zip_rows_column.
  - now rewrite nth_error_map, I.
  - rewrite <- L. destruct (snd k); simpl; apply length_map.
Qed.

Lemma In_take_holds {A : Type} (q : A -> bool) (l : list A) (a : A) :
  In a (take (map q l) l) -> q a = true.
Proof.
  induction l as [|x l IH]; simpl; [intros []|].
  destruct (q x) eqn:Q; simpl; [intros [<-|I]|]; auto.
Qed.

Lemma In_take_fails {A : Type} (q : A -> bool) (l : list A) (a : A) :
  In a (take (invert (map q l)) l) -> q a = false.
Proof.
  induction l as [|x l IH]; simpl; [intros []|].
  destruct (q x) eqn:Q; simpl; [|intros [<-|I]]; auto.
Qed.

(** C6: on a column of [T], [==] and [!=] with one operand split the rows
    of [T] when the predicate is evaluated (the column is not numeric, or
    [float] converts the operand): together the two results hold all the
    rows of [T], and no row is in both.  When the predicate is skipped (a
    numeric column with an operand [float] cannot convert), [==] and [!=]
    both return [T]. *)
Theorem eq_ne_partition
        (T : DataFrame) (c : string) (v : PyVal) (s : Series) :
  getitem T c = Ok s ->
  aligned T = true ->
  ((kind_of (dtype s) = Numeric -> py_float v <> None) ->
   exists E N : DataFrame,
     evaluate re T [mkFilter c "==" v] = Ok E /\
     evaluate re T [mkFilter c "!=" v] = Ok N /\
     Permutation (rows E ++ rows N)%list (rows T) /\
     (forall r : Row, In r (rows E) -> ~ In r (rows N))) /\
  (kind_of (dtype s) = Numeric -> py_float v = None ->
   evaluate re T [mkFilter c "==" v] = Ok T /\
   evaluate re T [mkFilter c "!=" v] = Ok T).
Proof.
  intros G A. rewrite !evaluate_select_all. cbn [select_all]. unfold select.
  cbn [col]. rewrite G. cbn [rbind]. split.
  - intros P. destruct (row_mask_eq_ne_by_cell c v s P) as [p [Me Mn]].
    destruct (rows_column T c s G A) as [j C].
    pose (q := fun r : Row => match nth j (snd r) None with
                              | Some k => p k
                              | None => false
                              end).
    assert (map p (cells s) = map q (rows T)) as Q.
    { unfold q.
      rewrite <- (map_map (fun r : Row => nth j (snd r) None)
                    (fun o => match o with
                              | Some k => p k
                              | None => false
                              end)).
      rewrite C. now rewrite map_map. }
    exists (getitem_mask (map p (cells s)) T),
           (getitem_mask (invert (map p (cells s))) T).
    rewrite Me, Mn. cbn [rbind]. rewrite !rows_getitem_mask, Q.
    split; [reflexivity|]. split; [reflexivity|]. split.
    + apply take_invert_Permutation. apply length_map.
    + intros r I1 I2. apply In_take_holds in I1. apply In_take_fails in I2.
      congruence.
  - intros K P.
    now rewrite !row_mask_unconvertible by assumption.
Qed.

End EvaluatorFacts.

(* ================================================================= *)
(** ** The evaluator on concrete tables *)

Lemma apply_filters_never_mutates_witness :
  nth_error [ages] 0 = Some ages /\
  nth_error
    (snd (apply_filters LiteralRegex.compile
            (mkSession (Some [age_at_least_20])) 0 [ages])) 0
  = Some ages.
Proof.
  split; [reflexivity|].
  apply (apply_filters_never_mutates LiteralRegex.compile
           (mkSession (Some [age_at_least_20])) 0 [ages] ages);
    reflexivity.
Defined.

Lemma evaluate_keeps_rows_in_order_witness :
  evaluate LiteralRegex.compile ages [age_at_least_20] = Ok adults /\
  Subseq (rows adults) (rows ages) /\
  labels adults = labels ages /\
  dtypes adults = dtypes ages.
Proof.
  split; [reflexivity|].
  apply (evaluate_keeps_rows_in_order LiteralRegex.compile
           [age_at_least_20] ages adults).
  reflexivity.
Defined.

Lemma evaluate_idempotent_witness :
  Forall (fun f => reads_datetime_text cities f = false)
    [city_contains_ny; age_at_least_20] /\
  (T' <- evaluate LiteralRegex.compile cities
           [city_contains_ny; age_at_least_20] ;;
   evaluate LiteralRegex.compile T' [city_contains_ny; age_at_least_20])
  = evaluate LiteralRegex.compile cities [city_contains_ny; age_at_least_20].
Proof.
  assert (Forall (fun f => reads_datetime_text cities f = false)
            [city_contains_ny; age_at_least_20]) as D
      by (repeat constructor).
  split; [exact D|].
  apply (evaluate_idempotent LiteralRegex.compile
           [city_contains_ny; age_at_least_20] cities D).
Defined.

(** C3 fails on a datetime64 column.  The column [when] holds a midnight
    and a noon, so [astype(str)] renders date and time, and the predicate
    (when, ==, "2020-01-01 00:00:00") keeps the first row.  In the result
    every value is a midnight, so [astype(str)] renders dates only,
    "2020-01-01", and the same predicate now keeps no row. *)
Lemma evaluate_twice_differs_on_datetime :
  evaluate LiteralRegex.compile visits [when_is_new_year] = Ok first_visit /\
  evaluate LiteralRegex.compile first_visit [when_is_new_year] = Ok no_visit /\
  (T' <- evaluate LiteralRegex.compile visits [when_is_new_year] ;;
   evaluate LiteralRegex.compile T' [when_is_new_year])
  <> evaluate LiteralRegex.compile visits [when_is_new_year].
Proof. repeat split. discriminate. Qed.

Lemma unconvertible_numeric_filter_skipped_witness :
  getitem ages "age" = Ok (F64 [10; 20; 30; nan]%float) /\
  kind_of float64 = Numeric /\
  py_float text_abc = None /\
  evaluate LiteralRegex.compile ages [age_is_abc; age_at_least_20]
  = evaluate LiteralRegex.compile ages [age_at_least_20].
Proof.
  split; [reflexivity|]. split; [reflexivity|]. split; [reflexivity|].
  apply (unconvertible_numeric_filter_skipped LiteralRegex.compile
           [] [age_at_least_20] age_is_abc ages
           (F64 [10; 20; 30; nan]%float));
    reflexivity.
Defined.

(** C1 fails on a Temporal column.  "abc" is no date and no number, yet
    the predicate (when, ==, "abc") is evaluated, on the rendered texts,
    and removes every row, where a skipped predicate would keep them
    all. *)
Lemma unconvertible_temporal_filter_not_skipped :
  getitem visits (col when_is_abc)
  = Ok (Datetime64 [Some new_year; Some next_noon]) /\
  kind_of datetime64 = Temporal /\
  py_float (val when_is_abc) = None /\
  evaluate LiteralRegex.compile visits [when_is_abc] = Ok no_visit /\
  evaluate LiteralRegex.compile visits [] = Ok visits /\
  evaluate LiteralRegex.compile visits [when_is_abc]
  <> evaluate LiteralRegex.compile visits [].
Proof. repeat split. discriminate. Qed.

Lemma eq_ne_partition_witness :
  getitem ages "age" = Ok (F64 [10; 20; 30; nan]%float) /\
  aligned ages = true /\
  (exists E N : DataFrame,
     evaluate LiteralRegex.compile ages [mkFilter "age" "==" number_20]
     = Ok E /\
     evaluate LiteralRegex.compile ages [mkFilter "age" "!=" number_20]
     = Ok N /\
     Permutation (rows E ++ rows N)%list (rows ages) /\
     (forall r : Row, In r (rows E) -> ~ In r (rows N))) /\
  evaluate LiteralRegex.compile ages [mkFilter "age" "==" text_abc]
  = Ok ages /\
  evaluate LiteralRegex.compile ages [mkFilter "age" "!=" text_abc]
  = Ok ages.
Proof.
  split; [reflexivity|]. split; [reflexivity|]. split.
  - apply (eq_ne_partition LiteralRegex.compile ages "age" number_20
             (F64 [10; 20; 30; nan]%float));
      [reflexivity | reflexivity | discriminate].
  - apply (eq_ne_partition LiteralRegex.compile ages "age" text_abc
             (F64 [10; 20; 30; nan]%float));
      reflexivity.
Defined.

(** C6 fails when the predicate is skipped: on the numeric column [age]
    the operand "abc" does not convert, both (age, ==, "abc") and
    (age, !=, "abc") return the whole table, and every row is in both
    results. *)
Lemma eq_ne_overlap_when_skipped :
  aligned ages = true /\ NoDup (index ages) /\
  evaluate LiteralRegex.compile ages [mkFilter "age" "==" text_abc] = Ok ages /\
  evaluate LiteralRegex.compile ages [mkFilter "age" "!=" text_abc] = Ok ages /\
  In (0%nat, [Some (FloatCell 10)]) (rows ages) /\
  ~ Permutation (rows ages ++ rows ages)%list (rows ages).
Proof.
  repeat split.
  - repeat constructor; simpl; intuition discriminate.
  - simpl. auto.
  - intros P. apply Permutation_length in P. discriminate.
Qed.

(** Whatever the regex engine, [str.contains] tests a missing cell as the
    text "nan". *)
Lemma missing_cell_searched_as_nan
      (re : string -> option (string -> bool)) (pat : PyVal)
      (search : string -> bool) :
  re (py_str pat) = Some search ->
  row_mask re (mkFilter "city" "contains" pat) (Object [None])
  = Ok (Some [search "nan"]).
Proof.
  intros H. unfold row_mask, string_mask, str_contains. simpl. now rewrite H.
Qed.

(** C5, on city = ["NYC", missing] with the operand "nan":
    [astype(str)] has turned the missing cell into the text "nan" before
    [str.contains] runs, so [na=False] finds no missing value to reject.
    The row whose city is missing satisfies (city, contains, "nan") and
    does not satisfy (city, not contains, "nan"). *)
Theorem missing_cell_matches_nan :
  evaluate LiteralRegex.compile cities [mkFilter "city" "contains" text_nan]
  = Ok {| index := [1]%nat;
          columns := [("city", Object [None]); ("age", F64 [20]%float)] |} /\
  evaluate LiteralRegex.compile cities [mkFilter "city" "not contains" text_nan]
  = Ok {| index := [0]%nat;
          columns := [("city", Object [Some "NYC"]);
                      ("age", F64 [10]%float)] |}.
Proof. split; reflexivity. Qed.

(* ================================================================= *)
(** ** Counting per group *)

Lemma filter_split_length {A : Type} (g p : A -> bool) (l : list A) :
  (List.length (filter (fun a => g a && negb (p a)) l)
   + List.length (filter (fun a => g a && p a) l)
   = List.length (filter g l))%nat.
Proof.
  induction l as [|a l IH]; simpl; [reflexivity|].
  destruct (g a), (p a); simpl; lia.
Qed.

Lemma filter_fst_combine {A B : Type} (g : A -> bool) (ks : list A)
      (vs : list B) :
  List.length ks = List.length vs ->
  List.length (filter (fun p => g (fst p)) (combine ks vs))
  = List.length (filter g ks).
Proof.
  revert vs; induction ks as [|k ks IH]; intros [|v vs] H; simpl in *;
    try discriminate; [reflexivity|].
  injection H as H. destruct (g k); simpl; now rewrite IH.
Qed.

Lemma length_cells (s : Series) : List.length (cells s) = size s.
Proof. destruct s; simpl; apply length_map. Qed.

(** In a group, the rows [count] counts and the rows whose measure is
    missing are all the rows. *)
Lemma group_count_missing (by_ measure : Series) (k : Cell) :
  size by_ = size measure ->
  (group_count by_ measure k + group_missing by_ measure k
   = group_size by_ k)%nat.
Proof.
  intros H. unfold group_count, group_missing, group_size.
  rewrite (filter_split_length (fun p => key_eqb (fst p) k)
             (fun p => isna (snd p))).
  apply (filter_fst_combine (fun c => key_eqb c k)).
  now rewrite !length_cells.
Qed.

Lemma group_missing_none (by_ measure : Series) (k : Cell) :
  forallb (fun c => negb (isna c)) (cells measure) = true ->
  group_missing by_ measure k = 0%nat.
Proof.
  unfold group_missing. generalize (cells by_) as ks.
  induction (cells measure) as [|v vs IH]; intros [|k0 ks] H; simpl in *;
    try reflexivity.
  apply andb_prop in H as [Hv H].
  destruct (isna v); [discriminate|]. rewrite andb_false_r. now apply IH.
Qed.

(** C4, with the missing measures accounted for: for a grouping column [x]
    and a numeric measure column [y] under another label, the aggregation
    with [count] emits the same groups in the same order as the row count
    without a measure, and in each group its value is the row count of the
    group less the rows whose measure is missing.  The two agree on every
    group when the measure has no missing value. *)
Theorem count_is_size_less_missing
        (df : DataFrame) (x y : string) (by_ measure : Series) :
  getitem df x = Ok by_ ->
  getitem df y = Ok measure ->
  kind_of (dtype measure) = Numeric ->
  x <> y -> y <> "" -> x <> "count" ->
  aligned df = true ->
  exists counted sized : Grouped,
    viz_area_count df x (Some y) = Ok counted /\
    viz_area_count df x None = Ok sized /\
    map fst counted = map fst sized /\
    Forall2 (fun c s => (snd c + group_missing by_ measure (fst c) = snd s)%nat)
      counted sized /\
    (forallb (fun c => negb (isna c)) (cells measure) = true ->
     counted = sized).
Proof.
  intros Gx Gy K Nxy Ny Nx A.
  apply kind_of_Numeric in K.
  apply String.eqb_neq in Nxy, Ny, Nx.
  assert (size by_ = size measure) as L.
  { rewrite (aligned_getitem df x by_ A Gx).
    now rewrite (aligned_getitem df y measure A Gy). }
  exists (map (fun k => (k, group_count by_ measure k)) (group_keys by_)),
         (map (fun k => (k, group_size by_ k)) (group_keys by_)).
  unfold viz_area_count, groupby_count, groupby_size.
  rewrite Ny, Gy, Gx. cbn [rbind]. rewrite K, Nxy, Nx.
  repeat split.
  - rewrite !map_map. reflexivity.
  - induction (group_keys by_) as [|k ks IH]; simpl; constructor; auto.
    simpl. now apply group_count_missing.
  - intros M. apply map_ext. intros k.
    rewrite <- (group_count_missing by_ measure k L).
    rewrite (group_missing_none by_ measure k M). f_equal. lia.
Qed.

Lemma count_is_size_less_missing_witness :
  getitem sparse "city" = Ok (Object [Some "A"; Some "A"]) /\
  getitem sparse "age" = Ok (F64 [1; nan]%float) /\
  aligned sparse = true /\
  exists counted sized : Grouped,
    viz_area_count sparse "city" (Some "age") = Ok counted /\
    viz_area_count sparse "city" None = Ok sized /\
    map fst counted = map fst sized /\
    Forall2 (fun c s =>
               (snd c + group_missing (Object [Some "A"; Some "A"])
                          (F64 [1; nan]%float) (fst c) = snd s)%nat)
      counted sized /\
    (forallb (fun c => negb (isna c)) (cells (F64 [1; nan]%float)) = true ->
     counted = sized).
Proof.
  split; [reflexivity|]. split; [reflexivity|]. split; [reflexivity|].
  apply (count_is_size_less_missing sparse "city" "age"
           (Object [Some "A"; Some "A"]) (F64 [1; nan]%float));
    try reflexivity; discriminate.
Defined.

(** C4 fails when a measure is missing.  On city = ["A", "A"] and
    age = [1, missing], [count] of age gives 1 for the group "A", the row
    count gives 2. *)
Lemma count_differs_from_size :
  kind_of (dtype (F64 [1; nan]%float)) = Numeric /\
  viz_area_count sparse "city" (Some "age")
  = Ok [(ObjectCell (Some "A"), 1%nat)] /\
  viz_area_count sparse "city" None
  = Ok [(ObjectCell (Some "A"), 2%nat)] /\
  viz_area_count sparse "city" (Some "age")
  <> viz_area_count sparse "city" None.
Proof. repeat split. discriminate. Qed.

(* ================================================================= *)
(** * Further properties of the evaluator *)

Section EvaluatorAlgebra.

Variable re : string -> option (string -> bool).

(** ** Filter sets compose *)

(** X1: Evaluating [F1 ++ F2] is evaluating [F2] on the result of [F1]; when
    [F1] raises, the whole set raises the same exception. *)
Theorem evaluate_app (T : DataFrame) (F1 F2 : list Filter) :
  evaluate re T (F1 ++ F2)%list
  = (T1 <- evaluate re T F1 ;; evaluate re T1 F2).
Proof.
  rewrite !evaluate_select_all, select_all_app.
  destruct (select_all re F1 T) as [T1|e]; cbn [rbind]; [|reflexivity].
  now rewrite evaluate_select_all.
Qed.

(** ** The order of the predicates *)

Lemma take_take_comm {A : Type} (m m0 : list bool) (xs : list A) :
  take (take m m0) (take m xs) = take (take m0 m) (take m0 xs).
Proof.
  revert m0 xs; induction m as [|b m IH]; intros m0 xs.
  - rewrite (take_nil_r m0). reflexivity.
  - destruct m0 as [|b0 m0]; [rewrite (take_nil_r (b :: m)); reflexivity|].
    destruct xs as [|x xs]; [now rewrite !take_nil_r|].
    destruct b, b0; simpl; now rewrite IH.
Qed.

Lemma getitem_mask_comm (m m0 : list bool) (T : DataFrame) :
  getitem_mask (take m m0) (getitem_mask m T)
  = getitem_mask (take m0 m) (getitem_mask m0 T).
Proof.
  unfold getitem_mask; simpl. rewrite take_take_comm. f_equal.
  rewrite !map_map. apply map_ext. intros c; simpl.
  destruct (snd c); simpl; now rewrite take_take_comm.
Qed.

Lemma select_unfold (f : Filter) (T : DataFrame) :
  select re f T =
    match getitem T (col f) with
    | Raise e => Raise e
    | Ok s =>
        match row_mask re f s with
        | Raise e => Raise e
        | Ok None => Ok T
        | Ok (Some m) => Ok (getitem_mask m T)
        end
    end.
Proof.
  unfold select. destruct (getitem T (col f)) as [s|e]; [|reflexivity].
  cbn [rbind]. destruct (row_mask re f s) as [[m|]|e]; reflexivity.
Qed.

(** Two predicates that both return can be applied in either order. *)
Lemma select_swap (f g : Filter) (T R : DataFrame) :
  reads_datetime_text T f = false ->
  reads_datetime_text T g = false ->
  (T1 <- select re f T ;; select re g T1) = Ok R ->
  (T1 <- select re g T ;; select re f T1) = Ok R.
Proof.
  intros Df Dg. rewrite (select_unfold f T), (select_unfold g T).
  destruct (getitem T (col f)) as [sf|ef] eqn:Gf; [|discriminate].
  destruct (row_mask re f sf) as [[mf|]|ef] eqn:Rf; cbn [rbind];
    try discriminate.
  - rewrite (select_getitem_mask re g mf T Dg).
    destruct (getitem T (col g)) as [sg|eg] eqn:Gg; [|discriminate].
    destruct (row_mask re g sg) as [[mg|]|eg] eqn:Rg; cbn [rbind];
      try discriminate.
    + rewrite (select_getitem_mask re f mg T Df), Gf, Rf.
      intros H; injection H as <-. now rewrite getitem_mask_comm.
    + now rewrite (select_unfold f T), Gf, Rf.
  - rewrite (select_unfold g T).
    destruct (getitem T (col g)) as [sg|eg] eqn:Gg; [|discriminate].
    destruct (row_mask re g sg) as [[mg|]|eg] eqn:Rg; cbn [rbind];
      try discriminate.
    + now rewrite (select_getitem_mask re f mg T Df), Gf, Rf.
    + now rewrite (select_unfold f T), Gf, Rf.
Qed.

Lemma reads_datetime_text_Forall (T T' : DataFrame) (F : list Filter) :
  Selected T T' ->
  Forall (fun f => reads_datetime_text T f = false) F ->
  Forall (fun f => reads_datetime_text T' f = false) F.
Proof.
  intros S D. eapply Forall_impl; [|exact D]. intros f Hf. simpl in Hf.
  now rewrite (reads_datetime_text_Selected T T' f S).
Qed.

Lemma select_all_Permutation (F F' : list Filter) :
  Permutation F F' ->
  forall T R,
    Forall (fun f => reads_datetime_text T f = false) F ->
    select_all re F T = Ok R -> select_all re F' T = Ok R.
Proof.
  induction 1 as [|x l l' P IH|x y l|l l' l'' P1 IH1 P2 IH2];
    intros T R D H.
  - assumption.
  - cbn [select_all] in *. inversion D as [|? ? Dx Dl]; subst.
    destruct (select re x T) as [T1|e] eqn:E; [|discriminate].
    cbn [rbind] in *. apply IH; [|assumption].
    apply reads_datetime_text_Forall with (T := T); auto.
    now apply select_Selected with (re := re) (f := x).
  - cbn [select_all] in *.
    inversion D as [|? ? Dy D']; subst. inversion D' as [|? ? Dx Dl]; subst.
    destruct (select re y T) as [T1|e] eqn:Ey; [|discriminate].
    cbn [rbind] in H.
    destruct (select re x T1) as [T2|e] eqn:Ex; [|discriminate].
    cbn [rbind] in H.
    assert ((U <- select re x T ;; select re y U) = Ok T2) as S.
    { apply select_swap; auto. now rewrite Ey. }
    destruct (select re x T) as [U|e]; [|discriminate].
    cbn [rbind] in *. now rewrite S.
  - apply IH2; [|now apply IH1].
    eapply Permutation_Forall; eauto.
Qed.

(** X2: The order of the predicates does not matter: a filter set that
    returns a table returns the same table in any other order, as long as
    no predicate compares the texts rendered from a datetime64 column. *)
Theorem evaluate_Permutation (T R : DataFrame) (F F' : list Filter) :
  Permutation F F' ->
  Forall (fun f => reads_datetime_text T f = false) F ->
  evaluate re T F = Ok R -> evaluate re T F' = Ok R.
Proof.
  rewrite !evaluate_select_all. intros P D H.
  now apply select_all_Permutation with (F := F).
Qed.

Lemma select_all_remove (F1 F2 : list Filter) (f : Filter) (T R : DataFrame) :
  Forall (fun g => reads_datetime_text T g = false) (F1 ++ f :: F2)%list ->
  select_all re (F1 ++ f :: F2)%list T = Ok R ->
  exists R' : DataFrame,
    select_all re (F1 ++ F2)%list T = Ok R' /\ Selected R' R.
Proof.
  intros D H.
  assert (select_all re ((F1 ++ F2) ++ [f])%list T = Ok R) as H'.
  { apply select_all_Permutation with (F := (F1 ++ f :: F2)%list); auto.
    rewrite <- app_assoc. apply Permutation_app_head.
    apply Permutation_cons_append. }
  rewrite select_all_app in H'.
  destruct (select_all re (F1 ++ F2)%list T) as [R'|e]; [|discriminate].
  exists R'. split; [reflexivity|]. cbn [rbind] in H'.
  now apply select_all_Selected in H'.
Qed.

Lemma Subseq_rows_Selected (T T' : DataFrame) :
  Selected T T' -> Subseq (rows T') (rows T).
Proof.
  intros [|m]; [apply Subseq_refl|].
  rewrite rows_getitem_mask. apply Subseq_take.
Qed.

Lemma Subseq_Forall {A : Type} (P : A -> Prop) (l1 l2 : list A) :
  Subseq l1 l2 -> Forall P l2 -> Forall P l1.
Proof.
  induction 1 as [|x l1 l2 S IH|x l1 l2 S IH]; intros H; auto;
    inversion H; subst; auto.
Qed.

Lemma select_all_Subseq (F' F : list Filter) :
  Subseq F' F ->
  forall T R,
    Forall (fun g => reads_datetime_text T g = false) F ->
    select_all re F T = Ok R ->
    exists R' : DataFrame,
      select_all re F' T = Ok R' /\ Subseq (rows R) (rows R').
Proof.
  induction 1 as [|x F' F S IH|x F' F S IH]; intros T R D H.
  - exists R. split; [assumption | apply Subseq_refl].
  - destruct (select_all_remove [] F x T R D H) as [R0 [H0 S0]].
    inversion D as [|? ? Dx DF]; subst.
    destruct (IH T R0 DF H0) as [R' [H' S']].
    exists R'. split; [assumption|].
    eapply Subseq_trans; [apply Subseq_rows_Selected; eassumption|].
    assumption.
  - cbn [select_all] in *. inversion D as [|? ? Dx DF]; subst.
    destruct (select re x T) as [T1|e] eqn:E; [|discriminate].
    cbn [rbind] in *. apply IH; [|assumption].
    apply reads_datetime_text_Forall with (T := T); auto.
    now apply select_Selected with (re := re) (f := x).
Qed.

(** X3: Dropping predicates from the set loses no row: when [F] returns a
    table, every filter set obtained from [F] by removing predicates
    returns a table too, of which the former is a subsequence. *)
Theorem evaluate_fewer_filters_more_rows
        (T R : DataFrame) (F F' : list Filter) :
  Subseq F' F ->
  Forall (fun g => reads_datetime_text T g = false) F ->
  evaluate re T F = Ok R ->
  exists R' : DataFrame,
    evaluate re T F' = Ok R' /\ Subseq (rows R) (rows R').
Proof.
  rewrite !evaluate_select_all. intros S D H.
  now apply select_all_Subseq with (F := F).
Qed.

(** ** Exceptions *)

Lemma string_mask_raises (o : string) (v : PyVal) (strs : list string)
      (e : PyExc) :
  string_mask re o v strs = Raise e <->
  (if existsb (String.eqb o) ["contains"; "not contains"] then
     match re (py_str v) with None => Some ReError | Some _ => None end
   else if existsb (String.eqb o) ["in"; "not in"] then
     match py_str_items v with None => Some TypeError | Some _ => None end
   else None) = Some e.
Proof.
  unfold string_mask, str_contains. cbn [existsb].
  destruct (String.eqb_spec o "==") as [->|N1];
    [simpl; split; discriminate|].
  destruct (String.eqb_spec o "!=") as [->|N2];
    [simpl; split; discriminate|].
  destruct (String.eqb_spec o "contains") as [->|N3];
    [simpl; destruct (re (py_str v)); simpl; split; congruence|].
  destruct (String.eqb_spec o "not contains") as [->|N4];
    [simpl; destruct (re (py_str v)); simpl; split; congruence|].
  destruct (String.eqb_spec o "in") as [->|N5];
    [simpl; destruct (py_str_items v); simpl; split; congruence|].
  destruct (String.eqb_spec o "not in") as [->|N6];
    [simpl; destruct (py_str_items v); simpl; split; congruence|].
  simpl. split; discriminate.
Qed.

(** The loop body raises on a column exactly as [body_exception] tells
    from the dtype of the column. *)
Lemma row_mask_raises (f : Filter) (s : Series) (e : PyExc) :
  row_mask re f s = Raise e <-> body_exception re f (dtype s) = Some e.
Proof.
  unfold row_mask, body_exception.
  destruct s; simpl;
    try (destruct (py_float (val f)); split; discriminate);
    apply string_mask_raises.
Qed.

Lemma schema_getitem_mask (m : list bool) (T : DataFrame) :
  schema (getitem_mask m T) = schema T.
Proof.
  unfold schema, getitem_mask; simpl. rewrite map_map.
  apply map_ext. intros c; simpl. now rewrite dtype_series_take.
Qed.

Lemma schema_Selected (T T' : DataFrame) :
  Selected T T' -> schema T' = schema T.
Proof. intros [|m]; [reflexivity | apply schema_getitem_mask]. Qed.

Lemma schema_filter (T : DataFrame) (name : string) :
  map (fun c => (fst c, dtype (snd c)))
      (filter (fun c => String.eqb (fst c) name) (columns T))
  = filter (fun c => String.eqb (fst c) name) (schema T).
Proof.
  unfold schema. induction (columns T) as [|c cols IH]; simpl;
    [reflexivity|].
  destruct (String.eqb (fst c) name); simpl; now rewrite IH.
Qed.

(** A label selects from two frames of one schema columns of one dtype,
    or raises the same exception on both. *)
Lemma getitem_schema (T T' : DataFrame) (name : string) :
  schema T = schema T' ->
  match getitem T name, getitem T' name with
  | Ok s, Ok s' => dtype s = dtype s'
  | Raise e, Raise e' => e = e'
  | _, _ => False
  end.
Proof.
  intros S. pose proof (schema_filter T name) as E.
  pose proof (schema_filter T' name) as E'. rewrite S, <- E' in E.
  unfold getitem.
  destruct (filter _ (columns T)) as [|c [|c2 r]];
    destruct (filter _ (columns T')) as [|c' [|c2' r']];
    simpl in E; try discriminate; auto.
  now injection E.
Qed.

Lemma select_raises_schema (f : Filter) (T T' : DataFrame) (e : PyExc) :
  schema T = schema T' ->
  select re f T = Raise e -> select re f T' = Raise e.
Proof.
  intros S. pose proof (getitem_schema T T' (col f) S) as G.
  rewrite !select_unfold.
  destruct (getitem T (col f)) as [s|e0], (getitem T' (col f)) as [s'|e0'];
    try contradiction; [|congruence].
  destruct (row_mask re f s) as [[m|]|e1] eqn:R; try discriminate.
  intros H; injection H as ->.
  apply row_mask_raises in R. rewrite G in R.
  apply row_mask_raises in R. now rewrite R.
Qed.

Lemma select_all_raises_schema (F : list Filter) :
  forall (T T' : DataFrame) (e : PyExc),
    schema T = schema T' ->
    select_all re F T = Raise e -> select_all re F T' = Raise e.
Proof.
  induction F as [|f F IH]; intros T T' e S H; [discriminate|].
  cbn [select_all] in *.
  destruct (select re f T) as [T1|e1] eqn:E1.
  - destruct (select re f T') as [T1'|e1'] eqn:E1'.
    + cbn [rbind] in *. apply IH with (T := T1); [|assumption].
      rewrite (schema_Selected T T1), (schema_Selected T' T1');
        eauto using select_Selected.
    + apply select_raises_schema with (T' := T) in E1'; congruence.
  - cbn [rbind] in H. injection H as ->.
    now rewrite (select_raises_schema f T T' e S E1).
Qed.

(** X4: Whether the evaluation raises, and which exception, is decided by the
    column labels, the dtypes and the filter set: two tables of one schema,
    the full table and its empty selection for instance, raise alike. *)
Theorem evaluate_raises_by_schema
        (T T' : DataFrame) (F : list Filter) (e : PyExc) :
  schema T = schema T' ->
  (evaluate re T F = Raise e <-> evaluate re T' F = Raise e).
Proof.
  intros S. rewrite !evaluate_select_all.
  split; apply select_all_raises_schema; congruence.
Qed.

Lemma getitem_absent (T : DataFrame) (name : string) :
  ~ In name (labels T) -> getitem T name = Raise KeyError.
Proof.
  intros N. unfold getitem.
  destruct (filter _ (columns T)) as [|c r] eqn:E; [reflexivity|].
  exfalso. apply N.
  assert (In c (filter (fun c => String.eqb (fst c) name) (columns T))) as I
      by (rewrite E; now left).
  apply filter_In in I as [I L]. apply String.eqb_eq in L. subst name.
  unfold labels. now apply in_map.
Qed.

Lemma labels_Selected (T T' : DataFrame) :
  Selected T T' -> labels T' = labels T.
Proof. intros [|m]; [reflexivity | apply labels_getitem_mask]. Qed.

(** X5: A predicate on a label the table does not have makes the evaluation
    raise KeyError once the predicates before it have been applied,
    whatever its operator and operand and whatever the rows. *)
Theorem evaluate_unknown_column
        (T T1 : DataFrame) (F1 F2 : list Filter) (f : Filter) :
  evaluate re T F1 = Ok T1 ->
  ~ In (col f) (labels T) ->
  evaluate re T (F1 ++ f :: F2)%list = Raise KeyError.
Proof.
  rewrite !evaluate_select_all, select_all_app. intros H N. rewrite H.
  cbn [rbind select_all]. rewrite select_unfold, getitem_absent;
    [reflexivity|].
  now rewrite (labels_Selected T T1 (select_all_Selected re F1 T T1 H)).
Qed.

(** ** Operators outside the chain of the column *)

Lemma numeric_mask_other (o : string) (v : float) (xs : list float) :
  existsb (String.eqb o) numeric_ops = false -> numeric_mask o v xs = None.
Proof.
  unfold numeric_ops, numeric_mask. simpl. intros H.
  repeat (apply orb_false_elim in H as [-> H]). reflexivity.
Qed.

Lemma row_mask_foreign_operator (f : Filter) (s : Series) :
  existsb (String.eqb (op f))
    (if is_numeric_dtype (dtype s) then numeric_ops else string_ops) = false ->
  row_mask re f s = Ok None.
Proof.
  unfold row_mask.
  destruct s; simpl; intros H;
    try (destruct (py_float (val f)); [|reflexivity];
         now rewrite numeric_mask_other);
    now apply string_mask_other.
Qed.

(** X6: A predicate whose operator is not in the chain its column takes is
    ignored: a text operator (contains, in, ...) on a numeric column, an
    ordering operator (<, <=, >, >=) on a datetime64 or text column.  The
    evaluation is that of the set without the predicate. *)
Theorem evaluate_foreign_operator
        (T : DataFrame) (F1 F2 : list Filter) (f : Filter) (s : Series) :
  getitem T (col f) = Ok s ->
  existsb (String.eqb (op f))
    (if is_numeric_dtype (dtype s) then numeric_ops else string_ops) = false ->
  evaluate re T (F1 ++ f :: F2)%list = evaluate re T (F1 ++ F2)%list.
Proof.
  intros G O. rewrite !evaluate_select_all, !select_all_app.
  destruct (select_all re F1 T) as [T1|e] eqn:E; [|reflexivity].
  cbn [rbind select_all].
  destruct (getitem_Selected T T1 (col f) s
              (select_all_Selected re F1 T T1 E) G) as [s1 [G1 D1]].
  rewrite select_unfold, G1, row_mask_foreign_operator;
    [reflexivity | now rewrite D1].
Qed.

End EvaluatorAlgebra.

(* ================================================================= *)
(** ** Missing values under the numeric comparisons *)

Lemma SFcompare_refl (x : spec_float) :
  x = S754_nan \/ SFcompare x x = Some Eq.
Proof.
  destruct x as [s|s| |s m e]; simpl; auto; right.
  - destruct s; reflexivity.
  - rewrite Z.compare_refl, Pos.compare_cont_refl. destruct s; reflexivity.
Qed.

Lemma isnan_Prim2SF (x : float) :
  Float64.isnan x = true -> Prim2SF x = S754_nan.
Proof.
  unfold Float64.isnan. rewrite eqb_spec. unfold SFeqb.
  destruct (SFcompare_refl (Prim2SF x)) as [N|E]; [auto|].
  rewrite E. discriminate.
Qed.

(** NaN compares false with everything, itself included. *)
Lemma nan_compares_false (x v : float) :
  Float64.isnan x = true ->
  Float64.eq x v = false /\ Float64.lt x v = false /\
  Float64.le x v = false /\ Float64.gt x v = false /\
  Float64.ge x v = false /\ Float64.ne x v = true.
Proof.
  intros N. apply isnan_Prim2SF in N.
  unfold Float64.eq, Float64.lt, Float64.le, Float64.gt, Float64.ge,
    Float64.ne.
  rewrite eqb_spec, !ltb_spec, !leb_spec, N.
  unfold SFeqb, SFltb, SFleb. simpl.
  destruct (Prim2SF v); repeat split; reflexivity.
Qed.

Lemma take_map_self {A : Type} (p : A -> bool) (xs : list A) :
  take (map p xs) xs = filter p xs.
Proof.
  induction xs as [|x xs IH]; simpl; [reflexivity|].
  destruct (p x); now rewrite IH.
Qed.

Lemma forallb_take {A : Type} (q : A -> bool) (m : list bool) (xs : list A) :
  forallb q xs = true -> forallb q (take m xs) = true.
Proof.
  revert xs; induction m as [|b m IH]; intros [|x xs] H; simpl in *; auto.
  apply andb_prop in H as [Hx H].
  destruct b; simpl; [rewrite Hx; simpl|]; now apply IH.
Qed.

Lemma forallb_map_comp {A B : Type} (q : B -> bool) (g : A -> B)
      (xs : list A) :
  forallb q (map g xs) = forallb (fun x => q (g x)) xs.
Proof. induction xs as [|x xs IH]; simpl; [reflexivity | now rewrite IH]. Qed.

Lemma no_missing_series_take (m : list bool) (s : Series) :
  no_missing s = true -> no_missing (series_take m s) = true.
Proof.
  unfold no_missing. rewrite cells_series_take. apply forallb_take.
Qed.

Lemma no_missing_filter (p : float -> bool) (xs : list float) :
  (forall x, p x = true -> Float64.isnan x = false) ->
  no_missing (F64 (filter p xs)) = true.
Proof.
  intros P. unfold no_missing. simpl. rewrite forallb_map_comp.
  apply forallb_forall. intros x I. apply filter_In in I as [_ I].
  simpl. now rewrite (P x I).
Qed.

Lemma no_missing_Int64 (xs : list Z) : no_missing (Int64 xs) = true.
Proof.
  unfold no_missing. simpl. rewrite forallb_map_comp. now apply forallb_forall.
Qed.

Lemma no_missing_Bool (xs : list bool) : no_missing (Bool_ xs) = true.
Proof.
  unfold no_missing. simpl. rewrite forallb_map_comp. now apply forallb_forall.
Qed.

Section MissingValues.

Variable re : string -> option (string -> bool).

(** One of [==], [<], [<=], [>], [>=] on a numeric column, with an operand
    that converts, selects with a mask after which no cell of the column
    is missing. *)
Lemma row_mask_strict (f : Filter) (s : Series) (v : float) :
  is_numeric_dtype (dtype s) = true ->
  py_float (val f) = Some v ->
  In (op f) strict_ops ->
  exists m : list bool,
    row_mask re f s = Ok (Some m) /\ no_missing (series_take m s) = true.
Proof.
  intros K P O. unfold row_mask. rewrite P.
  assert (forall x, (Float64.eq x v = true -> Float64.isnan x = false) /\
                    (Float64.lt x v = true -> Float64.isnan x = false) /\
                    (Float64.le x v = true -> Float64.isnan x = false) /\
                    (Float64.gt x v = true -> Float64.isnan x = false) /\
                    (Float64.ge x v = true -> Float64.isnan x = false)) as N.
  { intros x. destruct (Float64.isnan x) eqn:E; [|tauto].
    destruct (nan_compares_false x v E) as (-> & -> & -> & -> & -> & _).
    repeat split; discriminate. }
  destruct s; simpl in K; try discriminate; simpl values; cbv iota;
    unfold strict_ops in O; simpl in O;
    destruct O as [<-|[<-|[<-|[<-|[<-|[]]]]]];
    eexists; (split; [reflexivity|]); simpl series_take;
    auto using no_missing_Int64, no_missing_Bool;
    rewrite take_map_self; apply no_missing_filter; intros x; apply N.
Qed.

(** X7: After a filter set that returns, a numeric column on which the set
    holds one of [==], [<], [<=], [>], [>=] with a convertible operand has
    no missing value left: these comparisons are false on NaN, so they
    drop the rows where the column is missing. *)
Theorem evaluate_drops_missing
        (T R : DataFrame) (F : list Filter) (f : Filter) (s : Series)
        (v : float) :
  In f F ->
  getitem T (col f) = Ok s ->
  is_numeric_dtype (dtype s) = true ->
  py_float (val f) = Some v ->
  In (op f) strict_ops ->
  evaluate re T F = Ok R ->
  exists s' : Series, getitem R (col f) = Ok s' /\ no_missing s' = true.
Proof.
  intros I G K P O H. apply in_split in I as [F1 [F2 ->]].
  rewrite evaluate_select_all, select_all_app in H.
  destruct (select_all re F1 T) as [T1|e] eqn:E1; [|discriminate].
  cbn [rbind select_all] in H.
  destruct (getitem_Selected T T1 (col f) s
              (select_all_Selected re F1 T T1 E1) G) as [s1 [G1 D1]].
  destruct (row_mask_strict f s1 v) as [m [M N]]; auto; [congruence|].
  unfold select at 1 in H. rewrite G1 in H. cbn [rbind] in H.
  rewrite M in H. cbn [rbind] in H.
  apply select_all_Selected in H.
  assert (getitem (getitem_mask m T1) (col f) = Ok (series_take m s1)) as G2
      by (now rewrite getitem_getitem_mask, G1).
  destruct H as [|m'].
  - eauto.
  - exists (series_take m' (series_take m s1)). split.
    + now rewrite getitem_getitem_mask, G2.
    + now apply no_missing_series_take.
Qed.

Lemma filter_ne_keeps_nan (v : float) (xs : list float) :
  filter Float64.isnan (filter (fun x => Float64.ne x v) xs)
  = filter Float64.isnan xs.
Proof.
  induction xs as [|x xs IH]; simpl; [reflexivity|].
  destruct (Float64.isnan x) eqn:E.
  - destruct (nan_compares_false x v E) as (_ & _ & _ & _ & _ & ->).
    simpl. now rewrite E, IH.
  - destruct (Float64.ne x v); simpl; rewrite ?E; exact IH.
Qed.

(** X8: [!=] with a convertible operand keeps every row where a float64
    column is missing: NaN is different from every number, and from NaN.
    The missing values of the column are those of the table. *)
Theorem ne_keeps_missing
        (T : DataFrame) (c : string) (v : PyVal) (x : float)
        (xs : list float) :
  getitem T c = Ok (F64 xs) ->
  py_float v = Some x ->
  exists (R : DataFrame) (ys : list float),
    evaluate re T [mkFilter c "!=" v] = Ok R /\
    getitem R c = Ok (F64 ys) /\
    filter Float64.isnan ys = filter Float64.isnan xs.
Proof.
  intros G P.
  exists (getitem_mask (map (fun y => Float64.ne y x) xs) T),
         (filter (fun y => Float64.ne y x) xs).
  rewrite evaluate_select_all. cbn [select_all]. unfold select.
  cbn [col]. rewrite G. cbn [rbind]. unfold row_mask. cbn [values op val].
  rewrite P. cbn. repeat split.
  - rewrite getitem_getitem_mask, G. cbn [rbind series_take].
    now rewrite take_map_self.
  - apply filter_ne_keeps_nan.
Qed.

End MissingValues.

(* ================================================================= *)
(** * The filter form *)

Lemma nth_In_default {A : Type} (i : nat) (l : list A) (d : A) :
  In d l -> In (nth i l d) l.
Proof.
  intros D. destruct (nth_in_or_default i l d) as [I| ->]; assumption.
Qed.

Section FormFacts.

Variable re : string -> option (string -> bool).
Variable B : Builtins.

(** The filter of the form is on a column of the table, with an operator
    of the list offered for the dtype of that column and the operand of
    the widget shown for it. *)
Lemma form_filter_shape (df : DataFrame) (w : Widgets) (f : Filter) :
  form_filter B df w = Ok f ->
  exists s : Series,
    getitem df (col f) = Ok s /\
    match kind_of (dtype s) with
    | Numeric =>
        In (op f) numeric_ops /\ val f = of_float B (number_input w)
    | Temporal =>
        In (op f) numeric_ops /\ val f = of_date (date_input w)
    | Categorical =>
        In (op f) string_ops /\
        val f = if existsb (String.eqb (op f)) ["in"; "not in"]
                then of_list B (multiselect w)
                else of_str B (text_input w)
    end.
Proof.
  unfold form_filter, kind_of.
  destruct (nth_error (labels df) (pick_column w)) as [c|]; [|discriminate].
  destruct (getitem df c) as [s|e] eqn:G; [|discriminate]. cbn [rbind].
  assert (In (nth (pick_operator w) numeric_ops "==") numeric_ops) as I1
      by (apply nth_In_default; simpl; auto).
  assert (In (nth (pick_operator w) string_ops "==") string_ops) as I2
      by (apply nth_In_default; simpl; auto).
  remember (nth (pick_operator w) numeric_ops "==") as o1.
  remember (nth (pick_operator w) string_ops "==") as o2.
  cbv zeta.
  destruct (is_numeric_dtype (dtype s)) eqn:K1.
  { intros H; injection H as <-. exists s. rewrite K1. auto. }
  destruct (is_datetime64_any_dtype (dtype s)) eqn:K2.
  { intros H; injection H as <-. exists s. rewrite K1, K2. auto. }
  destruct (existsb (String.eqb o2) ["in"; "not in"]) eqn:E;
    intros H; injection H as <-; exists s; rewrite K1, K2;
    unfold op, val; rewrite E; auto.
Qed.

Lemma numeric_mask_offered (o : string) (v : float) (xs : list float) :
  In o numeric_ops -> exists m, numeric_mask o v xs = Some m.
Proof.
  unfold numeric_ops. simpl.
  intros [<-|[<-|[<-|[<-|[<-|[<-|[]]]]]]]; eexists; reflexivity.
Qed.

(** X9: A filter the form builds on a numeric column is evaluated on the
    table it was built for: its operand converts and its operator is one
    of the chain, so it is neither skipped nor ignored and it selects
    rows by a mask. *)
Theorem form_filter_numeric_applies
        (df : DataFrame) (w : Widgets) (f : Filter) (s : Series) :
  form_filter B df w = Ok f ->
  getitem df (col f) = Ok s ->
  is_numeric_dtype (dtype s) = true ->
  exists m : list bool,
    row_mask re f s = Ok (Some m) /\
    evaluate re df [f] = Ok (getitem_mask m df).
Proof.
  intros H G K. destruct (form_filter_shape df w f H) as [s0 [G0 S]].
  assert (s0 = s) by congruence. subst s0.
  apply kind_of_Numeric in K as K'. rewrite K' in S. destruct S as [O V].
  apply values_numeric in K as [xs X].
  destruct (numeric_mask_offered (op f) (number_input w) xs O) as [m M].
  exists m.
  assert (row_mask re f s = Ok (Some m)) as R.
  { unfold row_mask. rewrite X, V. simpl. now rewrite M. }
  split; [assumption|].
  rewrite evaluate_select_all. cbn [select_all]. unfold select.
  rewrite G. cbn [rbind]. now rewrite R.
Qed.

(** X10: On the table it was built for, a filter of the form can make the
    evaluation raise in one way only: [contains] or [not contains] on a
    text column with a pattern [re.compile] rejects. *)
Theorem form_filter_raises_only_ReError
        (df : DataFrame) (w : Widgets) (f : Filter) (e : PyExc) :
  form_filter B df w = Ok f ->
  evaluate re df [f] = Raise e ->
  e = ReError /\
  In (op f) ["contains"; "not contains"] /\
  re (text_input w) = None.
Proof.
  intros H. destruct (form_filter_shape df w f H) as [s [G S]].
  rewrite evaluate_select_all. cbn [select_all]. unfold select.
  rewrite G. cbn [rbind].
  destruct (row_mask re f s) as [r|e0] eqn:R; [discriminate|].
  cbn [rbind]. intros E; injection E as ->.
  apply row_mask_raises in R. unfold body_exception in R.
  unfold kind_of in S.
  destruct (is_numeric_dtype (dtype s)); [discriminate|].
  destruct (is_datetime64_any_dtype (dtype s)).
  - destruct S as [O V]. rewrite V in R. unfold numeric_ops in O.
    simpl in O. exfalso.
    destruct O as [O|[O|[O|[O|[O|[O|[]]]]]]]; rewrite <- O in R;
      discriminate.
  - destruct S as [O V].
    destruct (existsb (String.eqb (op f)) ["contains"; "not contains"])
      eqn:C.
    + assert (existsb (String.eqb (op f)) ["in"; "not in"] = false) as N.
      { simpl in C |- *. apply orb_prop in C as [C|C];
          [|apply orb_prop in C as [C|C]; [|discriminate]];
          apply String.eqb_eq in C; rewrite C; reflexivity. }
      rewrite N in V. rewrite V in R. simpl in R.
      destruct (re (text_input w)); [discriminate|].
      injection R as <-. repeat split.
      simpl in C |- *. apply orb_prop in C as [C|C];
        [|apply orb_prop in C as [C|C]; [|discriminate]];
        apply String.eqb_eq in C; auto.
    + destruct (existsb (String.eqb (op f)) ["in"; "not in"]);
        [|discriminate].
      rewrite V in R. discriminate.
Qed.

(** X11: Of the six operators the form offers for a datetime64 column, the
    four orderings [<], [<=], [>], [>=] (positions 2 to 5 of the list)
    build a filter that removes no row: [apply_filters] has no branch for
    dates and its chain over texts does not know these operators. *)
Theorem form_filter_date_ordering_ignored
        (df : DataFrame) (w : Widgets) (f : Filter) (s : Series) :
  form_filter B df w = Ok f ->
  getitem df (col f) = Ok s ->
  is_datetime64_any_dtype (dtype s) = true ->
  (2 <= pick_operator w <= 5)%nat ->
  evaluate re df [f] = Ok df.
Proof.
  intros H G D P. destruct (form_filter_shape df w f H) as [s0 [G0 S]].
  assert (s0 = s) by congruence. subst s0.
  assert (op f = nth (pick_operator w) numeric_ops "==") as O.
  { unfold form_filter in H.
    destruct (nth_error (labels df) (pick_column w)) as [c|];
      [|discriminate].
    destruct (getitem df c) as [s1|e] eqn:G1; [|discriminate].
    cbn [rbind] in H.
    destruct (is_numeric_dtype (dtype s1)) eqn:K1;
      [injection H as <-; reflexivity|].
    destruct (is_datetime64_any_dtype (dtype s1)) eqn:K2;
      [injection H as <-; reflexivity|].
    exfalso. cbv zeta in H.
    destruct (existsb _ ["in"; "not in"]); injection H as <-;
      cbn [col] in G; congruence. }
  rewrite evaluate_select_all. cbn [select_all]. rewrite select_unfold, G.
  rewrite row_mask_foreign_operator; [reflexivity|].
  rewrite O. destruct s; try discriminate. simpl is_numeric_dtype. cbv iota.
  destruct (pick_operator w) as [|[|[|[|[|[|n]]]]]]; try lia; reflexivity.
Qed.

End FormFacts.

(* ================================================================= *)
(** * Groups *)

(** ** The keys of the groups *)

Lemma lex_compare_eq (a b : list nat) : lex_compare a b = Eq <-> a = b.
Proof.
  revert b; induction a as [|x a IH]; intros [|y b]; simpl;
    try (split; [discriminate|discriminate]); [tauto|].
  destruct (Nat.compare x y) eqn:C.
  - apply Nat.compare_eq_iff in C. subst y. rewrite IH.
    split; [now intros -> | now intros H; injection H].
  - split; [discriminate|]. intros H; injection H as -> _.
    rewrite Nat.compare_refl in C. discriminate.
  - split; [discriminate|]. intros H; injection H as -> _.
    rewrite Nat.compare_refl in C. discriminate.
Qed.

Lemma finite_case (m m' : positive) (e e' : Z) :
  match (e ?= e')%Z with
  | Eq => Pos.compare m m'
  | Lt => Lt
  | Gt => Gt
  end = Eq <-> m = m' /\ e = e'.
Proof.
  destruct (Z.compare_spec e e') as [E|E|E].
  - rewrite Pos.compare_eq_iff. subst. tauto.
  - split; [discriminate|]. intros [_ ->]. lia.
  - split; [discriminate|]. intros [_ ->]. lia.
Qed.
Lemma finite_case_opp (m m' : positive) (e e' : Z) :
  match (e ?= e')%Z with
  | Eq => CompOpp (Pos.compare m m')
  | Lt => Gt
  | Gt => Lt
  end = Eq <-> m = m' /\ e = e'.
Proof.
  destruct (Z.compare_spec e e') as [E|E|E].
  - rewrite <- Pos.compare_eq_iff. subst.
    destruct (Pos.compare m m'); simpl; split; try tauto; try discriminate;
      intros [H _]; discriminate.
  - split; [discriminate|]. intros [_ ->]. lia.
  - split; [discriminate|]. intros [_ ->]. lia.
Qed.
Lemma cmp_true (c : comparison) :
  match c with Eq => true | _ => false end = true <-> c = Eq.
Proof. destruct c; split; congruence. Qed.
Lemma SFeqb_same (x y : spec_float) : SFeqb x y = true <-> sf_same x y.
Proof.
  unfold SFeqb.
  destruct x as [s|s| |s m e], y as [s'|s'| |s' m' e']; simpl.
  all: try solve [ repeat match goal with b : bool |- _ => destruct b end;
                   simpl; split; intros H;
                   (discriminate || contradiction || reflexivity
                    || exact I) ].
  rewrite cmp_true.
  change (PosDef.Pos.compare_cont Eq m m') with (Pos.compare m m').
  destruct s, s'.
  - rewrite finite_case_opp. intuition.
  - split; [discriminate | intros [? _]; discriminate].
  - split; [discriminate | intros [? _]; discriminate].
  - rewrite finite_case. intuition.
Qed.

Lemma sf_same_sym (x y : spec_float) : sf_same x y -> sf_same y x.
Proof.
  destruct x, y; simpl; auto. intros (-> & -> & ->). auto.
Qed.

Lemma sf_same_trans (x y z : spec_float) :
  sf_same x y -> sf_same y z -> sf_same x z.
Proof.
  destruct x, y, z; simpl; try tauto; try congruence.
  intros (-> & -> & ->) (-> & -> & ->). auto.
Qed.

Lemma float_eqb_sym (x y : float) : PrimFloat.eqb x y = PrimFloat.eqb y x.
Proof.
  rewrite !eqb_spec.
  destruct (SFeqb (Prim2SF x) (Prim2SF y)) eqn:A;
    destruct (SFeqb (Prim2SF y) (Prim2SF x)) eqn:C; auto.
  - apply SFeqb_same, sf_same_sym, SFeqb_same in A. congruence.
  - apply SFeqb_same, sf_same_sym, SFeqb_same in C. congruence.
Qed.

Lemma float_eqb_trans (x y z : float) :
  PrimFloat.eqb x y = true -> PrimFloat.eqb y z = true ->
  PrimFloat.eqb x z = true.
Proof.
  rewrite !eqb_spec, !SFeqb_same. apply sf_same_trans.
Qed.

Lemma float_eqb_not_nan (x y : float) :
  PrimFloat.eqb x y = true ->
  Float64.isnan x = false /\ Float64.isnan y = false.
Proof.
  intros E. split.
  - destruct (Float64.isnan x) eqn:N; [|reflexivity].
    destruct (nan_compares_false x y N) as [H _].
    unfold Float64.eq in H. congruence.
  - destruct (Float64.isnan y) eqn:N; [|reflexivity].
    destruct (nan_compares_false y x N) as [H _].
    unfold Float64.eq in H. rewrite float_eqb_sym in H. congruence.
Qed.

Lemma key_eqb_refl (a : Cell) : key_eqb a a = true.
Proof.
  destruct a as [z|x|b|[t|]|[s|]]; simpl; auto.
  - apply Z.eqb_refl.
  - unfold Float64.isnan. now destruct (PrimFloat.eqb x x).
  - now destruct b.
  - unfold timestamp_compare.
    now rewrite (proj2 (lex_compare_eq _ _) eq_refl).
  - apply String.eqb_refl.
Qed.

Lemma timestamp_compare_sym (s t : Timestamp) :
  timestamp_compare s t = Eq -> timestamp_compare t s = Eq.
Proof.
  unfold timestamp_compare. rewrite !lex_compare_eq. congruence.
Qed.

Lemma timestamp_compare_trans (s t u : Timestamp) :
  timestamp_compare s t = Eq -> timestamp_compare t u = Eq ->
  timestamp_compare s u = Eq.
Proof.
  unfold timestamp_compare. rewrite !lex_compare_eq. congruence.
Qed.

Lemma key_eqb_sym (a b : Cell) : key_eqb a b = key_eqb b a.
Proof.
  destruct a as [z|x|b0|[t|]|[s|]], b as [z'|x'|b'|[t'|]|[s'|]];
    simpl; auto.
  - apply Z.eqb_sym.
  - rewrite float_eqb_sym. f_equal. apply andb_comm.
  - now destruct b0, b'.
  - destruct (timestamp_compare t t') eqn:A;
      destruct (timestamp_compare t' t) eqn:C; auto.
    + apply timestamp_compare_sym in A. congruence.
    + apply timestamp_compare_sym in A. congruence.
    + apply timestamp_compare_sym in C. congruence.
    + apply timestamp_compare_sym in C. congruence.
  - apply String.eqb_sym.
Qed.

Lemma key_eqb_trans (a b c : Cell) :
  key_eqb a b = true -> key_eqb b c = true -> key_eqb a c = true.
Proof.
  destruct a as [z|x|b0|[t|]|[s|]], b as [z'|x'|b'|[t'|]|[s'|]];
    simpl; try discriminate;
    destruct c as [z''|x''|b''|[t''|]|[s''|]]; simpl;
    try discriminate; auto.
  - rewrite !Z.eqb_eq. congruence.
  - intros H1 H2.
    apply orb_prop in H1 as [H1|H1]; apply orb_prop in H2 as [H2|H2].
    + now rewrite (float_eqb_trans x x' x'' H1 H2).
    + apply float_eqb_not_nan in H1 as [_ N].
      apply andb_prop in H2 as [N' _]. congruence.
    + apply float_eqb_not_nan in H2 as [N _].
      apply andb_prop in H1 as [_ N']. congruence.
    + apply andb_prop in H1 as [-> _]. apply andb_prop in H2 as [_ ->].
      apply orb_true_r.
  - destruct b0, b', b''; auto.
  - destruct (timestamp_compare t t') eqn:A; try discriminate.
    destruct (timestamp_compare t' t'') eqn:C; try discriminate.
    now rewrite (timestamp_compare_trans t t' t'' A C).
  - rewrite !String.eqb_eq. congruence.
Qed.

(** ** Every row is in exactly one group *)

Lemma list_sum_filter_zero {A : Type} (p : A -> bool) (g g' : A -> nat)
      (l : list A) :
  (forall a, In a l -> p a = true -> g a = g' a) ->
  (forall a, In a l -> p a = false -> g' a = 0%nat) ->
  list_sum (map g (filter p l)) = list_sum (map g' l).
Proof.
  induction l as [|a l IH]; intros H1 H0; simpl; [reflexivity|].
  destruct (p a) eqn:P; simpl.
  - rewrite (H1 a); auto using in_eq.
    rewrite IH; auto using in_cons.
  - rewrite (H0 a); auto using in_eq. simpl.
    apply IH; auto using in_cons.
Qed.

Lemma filter_none {A : Type} (p : A -> bool) (l : list A) :
  (forall a, In a l -> p a = false) -> filter p l = [].
Proof.
  induction l as [|a l IH]; intros H; simpl; [reflexivity|].
  rewrite (H a (in_eq a l)). apply IH. auto using in_cons.
Qed.

Lemma filter_length_split {A : Type} (p : A -> bool) (l : list A) :
  (List.length (filter p l)
   + List.length (filter (fun a => negb (p a)) l))%nat = List.length l.
Proof.
  induction l as [|a l IH]; simpl; [reflexivity|].
  destruct (p a); simpl; lia.
Qed.

Lemma list_sum_cons (a : nat) (l : list nat) :
  list_sum (a :: l) = (a + list_sum l)%nat.
Proof. reflexivity. Qed.

(** The rows whose key is covered by [ks] are shared out among the
    first occurrences of the keys of [ks]. *)
Lemma unique_covers {X : Type} (key : X -> Cell) (ks : list Cell) :
  forall xs : list X,
    (forall x, In x xs -> exists k, In k ks /\ key_eqb (key x) k = true) ->
    list_sum
      (map (fun k => List.length (filter (fun x => key_eqb (key x) k) xs))
         (unique ks))
    = List.length xs.
Proof.
  induction ks as [|k ks IH]; intros xs C.
  - destruct xs as [|x xs]; [reflexivity|].
    destruct (C x (in_eq x xs)) as [k [[] _]].
  - cbn [unique map]. rewrite list_sum_cons.
    rewrite <- (filter_length_split (fun x => key_eqb (key x) k) xs).
    f_equal.
    rewrite <- (IH (filter (fun x => negb (key_eqb (key x) k)) xs)).
    + apply list_sum_filter_zero.
      * intros k' _ N. apply negb_true_iff in N. f_equal.
        induction xs as [|x xs IHx]; simpl; [reflexivity|].
        destruct (key_eqb (key x) k') eqn:E.
        -- assert (key_eqb (key x) k = false) as E'.
           { destruct (key_eqb (key x) k) eqn:E'; [|reflexivity].
             rewrite key_eqb_sym in E.
             now rewrite (key_eqb_trans k' (key x) k E E') in N. }
           rewrite E'. simpl. rewrite E. f_equal.
           apply IHx. intros y I. apply C. now right.
        -- destruct (key_eqb (key x) k); simpl; rewrite ?E;
             apply IHx; intros y I; apply C; now right.
      * intros k' _ N. apply negb_false_iff in N.
        rewrite filter_none; [reflexivity|].
        intros x I. apply filter_In in I as [_ I].
        apply negb_true_iff in I.
        destruct (key_eqb (key x) k') eqn:E; [|reflexivity].
        now rewrite (key_eqb_trans (key x) k' k E N) in I.
    + intros x I. apply filter_In in I as [I N].
      apply negb_true_iff in N.
      destruct (C x I) as [k0 [[<-|I0] E]]; [congruence|eauto].
Qed.

Lemma insert_key_Permutation (k : Cell) (ks : list Cell) :
  Permutation (insert_key k ks) (k :: ks).
Proof.
  induction ks as [|k' ks IH]; simpl; [apply Permutation_refl|].
  destruct (key_leb k k'); [apply Permutation_refl|].
  eapply Permutation_trans; [apply perm_skip, IH | apply perm_swap].
Qed.

Lemma sort_keys_Permutation (ks : list Cell) : Permutation (sort_keys ks) ks.
Proof.
  induction ks as [|k ks IH]; simpl; [apply Permutation_refl|].
  eapply Permutation_trans; [apply insert_key_Permutation|].
  now apply perm_skip.
Qed.

Lemma list_sum_Permutation (l l' : list nat) :
  Permutation l l' -> list_sum l = list_sum l'.
Proof. induction 1; simpl; lia. Qed.

(** The sizes of the groups emitted for a column add up to its rows. *)
Lemma group_sizes_total {X : Type} (key : X -> Cell) (xs : list X) :
  list_sum
    (map (fun k => List.length (filter (fun x => key_eqb (key x) k) xs))
       (sort_keys (unique (map key xs))))
  = List.length xs.
Proof.
  rewrite (list_sum_Permutation _ _
             (Permutation_map _ (sort_keys_Permutation _))).
  apply unique_covers. intros x I. exists (key x).
  split; [now apply in_map | apply key_eqb_refl].
Qed.

Lemma In_unique (ks : list Cell) (k : Cell) :
  In k (unique ks) -> In k ks.
Proof.
  revert k; induction ks as [|k0 ks IH]; intros k; simpl; [auto|].
  intros [<-|I]; [now left|].
  apply filter_In in I as [I _]. right. now apply IH.
Qed.

Lemma unique_complete (ks : list Cell) (c : Cell) :
  In c ks -> exists k, In k (unique ks) /\ key_eqb c k = true.
Proof.
  induction ks as [|k0 ks IH]; simpl; [contradiction|].
  intros [<-|I].
  - exists k0. split; [now left | apply key_eqb_refl].
  - destruct (IH I) as [k [Ik E]].
    destruct (key_eqb k k0) eqn:E0.
    + exists k0. split; [now left|]. now apply key_eqb_trans with (b := k).
    + exists k. split; [|assumption]. right. apply filter_In.
      now rewrite E0.
Qed.

Lemma Pairwise_filter {A : Type} (R : A -> A -> Prop) (p : A -> bool)
      (l : list A) :
  Pairwise R l -> Pairwise R (filter p l).
Proof.
  induction 1 as [|a l F P IH]; simpl; [constructor|].
  destruct (p a); [|assumption]. constructor; [|assumption].
  apply Forall_forall. intros b I. apply filter_In in I as [I _].
  rewrite Forall_forall in F. auto.
Qed.

Lemma Pairwise_unique (ks : list Cell) : Pairwise other_group (unique ks).
Proof.
  induction ks as [|k ks IH]; simpl; constructor.
  - apply Forall_forall. intros k' I. apply filter_In in I as [_ N].
    apply negb_true_iff in N. unfold other_group.
    now rewrite key_eqb_sym.
  - now apply Pairwise_filter.
Qed.

Lemma Pairwise_insert_key (k : Cell) (ks : list Cell) :
  Forall (other_group k) ks -> Pairwise other_group ks ->
  Pairwise other_group (insert_key k ks).
Proof.
  induction ks as [|k' ks IH]; intros F P; simpl.
  - constructor; [constructor | constructor].
  - destruct (key_leb k k'); [now constructor|].
    inversion F as [|? ? Fk F']; subst. inversion P as [|? ? Pk P']; subst.
    constructor; [|auto].
    apply Forall_forall. intros b I.
    apply (Permutation_in _ (insert_key_Permutation k ks)) in I.
    destruct I as [<-|I].
    + unfold other_group in *. now rewrite key_eqb_sym.
    + rewrite Forall_forall in Pk. auto.
Qed.

Lemma Pairwise_sort_keys (ks : list Cell) :
  Pairwise other_group ks -> Pairwise other_group (sort_keys ks).
Proof.
  induction 1 as [|k ks F P IH]; simpl; [constructor|].
  apply Pairwise_insert_key; [|assumption].
  apply Forall_forall. intros b I.
  apply (Permutation_in _ (sort_keys_Permutation ks)) in I.
  rewrite Forall_forall in F. auto.
Qed.

(** X12: The row count per group ([groupby(x, dropna=False).size()]) shares
    the rows out: the groups emitted have pairwise different keys, every
    row has the key of one of them, and the sizes add up to the number of
    rows of the table. *)
Theorem groupby_size_partitions
        (df : DataFrame) (x : string) (g : Grouped) :
  groupby_size df x = Ok g ->
  exists by_ : Series,
    getitem df x = Ok by_ /\
    Pairwise other_group (map fst g) /\
    (forall c, In c (cells by_) ->
               exists k, In k (map fst g) /\ key_eqb c k = true) /\
    list_sum (map snd g) = size by_.
Proof.
  unfold groupby_size. destruct (getitem df x) as [by_|e]; [|discriminate].
  cbn [rbind]. destruct (x =? "count"); [discriminate|].
  intros H; injection H as <-. exists by_. rewrite !map_map. simpl.
  rewrite map_id. unfold group_keys. repeat split.
  - apply Pairwise_sort_keys, Pairwise_unique.
  - intros c I. destruct (unique_complete (cells by_) c I) as [k [Ik E]].
    exists k. split; [|assumption].
    apply (Permutation_in _ (Permutation_sym (sort_keys_Permutation _))).
    assumption.
  - rewrite <- length_cells.
    rewrite <- (group_sizes_total (fun c => c) (cells by_)).
    now rewrite map_id.
Qed.

Lemma filter_andb {A : Type} (p q : A -> bool) (l : list A) :
  filter (fun a => p a && q a) l = filter p (filter q l).
Proof.
  induction l as [|a l IH]; simpl; [reflexivity|].
  destruct (q a); simpl; [destruct (p a); simpl; now rewrite IH|].
  now rewrite andb_false_r.
Qed.

Lemma filter_snd_combine {A C : Type} (q : C -> bool) (ks : list A)
      (vs : list C) :
  List.length ks = List.length vs ->
  List.length (filter (fun p => q (snd p)) (combine ks vs))
  = List.length (filter q vs).
Proof.
  revert vs; induction ks as [|k ks IH]; intros [|v vs] H; simpl in *;
    try discriminate; [reflexivity|].
  injection H as H. destruct (q v); simpl; now rewrite IH.
Qed.

(** X13: The counts per group ([groupby(x, dropna=False)[y].count()]) add up
    to the number of rows whose measure is present: a row with a missing
    measure is in no count, every other row in exactly one. *)
Theorem groupby_count_total
        (df : DataFrame) (x y : string) (g : Grouped) :
  aligned df = true ->
  groupby_count df x y = Ok g ->
  exists measure : Series,
    getitem df y = Ok measure /\
    list_sum (map snd g)
    = List.length (filter (fun c => negb (isna c)) (cells measure)).
Proof.
  intros A. unfold groupby_count.
  destruct (getitem df x) as [by_|e] eqn:Gx; [|discriminate].
  destruct (getitem df y) as [measure|e] eqn:Gy; [|discriminate].
  cbn [rbind]. destruct (x =? y); [discriminate|].
  intros H; injection H as <-. exists measure. split; [reflexivity|].
  rewrite map_map. simpl. unfold group_keys, group_count.
  rewrite (list_sum_Permutation _ _
             (Permutation_map _ (sort_keys_Permutation _))).
  rewrite <- (filter_snd_combine (fun c => negb (isna c)) (cells by_)).
  - rewrite <- (unique_covers (@fst Cell Cell) (cells by_)
                  (filter (fun p => negb (isna (snd p)))
                     (combine (cells by_) (cells measure)))).
    + f_equal. apply map_ext. intros k. now rewrite <- filter_andb.
    + intros p I. apply filter_In in I as [I _]. exists (fst p).
      split; [|apply key_eqb_refl].
      destruct p as [a b]. now apply in_combine_l in I.
  - rewrite !length_cells.
    rewrite (aligned_getitem df x by_ A Gx).
    now rewrite (aligned_getitem df y measure A Gy).
Qed.

(** ** Groups of a filtered table *)

Lemma filter_take_length {A : Type} (p : A -> bool) (m : list bool)
      (l : list A) :
  (List.length (filter p (take m l)) <= List.length (filter p l))%nat.
Proof.
  revert l; induction m as [|b m IH]; intros [|a l]; simpl; try lia.
  specialize (IH l).
  destruct b; simpl; destruct (p a); simpl; lia.
Qed.

Section FilteredCharts.

Variable re : string -> option (string -> bool).

(** X14: Filtering can only lower the bars of the count chart: in the
    evaluated table every group of a column has at most the rows it has
    in the table itself. *)
Theorem evaluate_lowers_group_sizes
        (T R : DataFrame) (F : list Filter) (x : string) (by_ : Series) :
  evaluate re T F = Ok R ->
  getitem T x = Ok by_ ->
  exists by' : Series,
    getitem R x = Ok by' /\
    forall k : Cell, (group_size by' k <= group_size by_ k)%nat.
Proof.
  rewrite evaluate_select_all. intros H G.
  apply select_all_Selected in H. destruct H as [|m].
  - exists by_. split; [assumption | intros k; lia].
  - exists (series_take m by_). split.
    + now rewrite getitem_getitem_mask, G.
    + intros k. unfold group_size. rewrite cells_series_take.
      apply filter_take_length.
Qed.

(** ** The correlation matrix of a filtered table *)

Lemma select_dtypes_number_mask (m : list bool) (T : DataFrame) :
  select_dtypes_number (getitem_mask m T)
  = getitem_mask m (select_dtypes_number T).
Proof.
  unfold select_dtypes_number, getitem_mask; simpl. f_equal.
  induction (columns T) as [|c cols IH]; simpl; [reflexivity|].
  rewrite dtype_series_take.
  destruct (is_np_number (dtype (snd c))); simpl; now rewrite IH.
Qed.

(** X15: Filtering never makes the correlation matrix appear or disappear, not
    even when no row is left: the evaluated table has the numeric columns
    of the table, restricted to the rows kept, and [correlation_matrix]
    draws for it exactly when it draws for the table. *)
Theorem evaluate_keeps_correlation_columns
        (T R : DataFrame) (F : list Filter) :
  evaluate re T F = Ok R ->
  Selected (select_dtypes_number T) (select_dtypes_number R) /\
  labels (select_dtypes_number R) = labels (select_dtypes_number T) /\
  (correlation_matrix R = [] <-> correlation_matrix T = []).
Proof.
  rewrite evaluate_select_all. intros H.
  apply select_all_Selected in H. destruct H as [|m].
  - repeat split; auto; constructor.
  - rewrite select_dtypes_number_mask. split; [constructor|].
    split; [apply labels_getitem_mask|].
    unfold correlation_matrix. rewrite select_dtypes_number_mask.
    assert (List.length (columns (getitem_mask m (select_dtypes_number T)))
            = List.length (columns (select_dtypes_number T))) as L
        by (unfold getitem_mask; simpl; apply length_map).
    rewrite L.
    destruct (2 <=? List.length (columns (select_dtypes_number T)))%nat;
      split; (discriminate || reflexivity).
Qed.

End FilteredCharts.

(* ================================================================= *)
(** * Charts *)

Lemma existsb_String_In (s : string) (l : list string) :
  existsb (String.eqb s) l = true <-> In s l.
Proof.
  rewrite existsb_exists. split.
  - intros [t [I E]]. apply String.eqb_eq in E. now subst.
  - intros I. exists s. split; [assumption | apply String.eqb_refl].
Qed.

Section ChartFacts.

Variable reduce : string -> Series -> Cell.

Lemma numeric_measure_Some (df : DataFrame) (y : option string) (y' : string) :
  numeric_measure df y = Ok (Some y') ->
  y = Some y' /\
  exists m, getitem df y' = Ok m /\ is_numeric_dtype (dtype m) = true.
Proof.
  unfold numeric_measure. destruct y as [y0|]; [|discriminate].
  destruct (y0 =? ""); [discriminate|].
  destruct (getitem df y0) as [m|e] eqn:G; [|discriminate]. cbn [rbind].
  destruct (is_numeric_dtype (dtype m)) eqn:K; [|discriminate].
  intros H; injection H as <-. eauto.
Qed.

Lemma numeric_measure_returns (df : DataFrame) (y : option string) :
  (forall y', y = Some y' -> y' <> "" -> exists m, getitem df y' = Ok m) ->
  exists r, numeric_measure df y = Ok r.
Proof.
  unfold numeric_measure. intros H. destruct y as [y0|]; [|eauto].
  destruct (String.eqb_spec y0 "") as [E|N]; [eauto|].
  destruct (H y0 eq_refl N) as [m ->]. cbn [rbind]. eauto.
Qed.

(** X16: [viz_area] raises in two cases only, both from [reset_index] after a
    bar or line aggregation: the numeric measure is the grouping column
    itself, or rows are counted by a column labelled "count".  Scatter
    and histogram never raise. *)
Theorem viz_area_raises
        (df : DataFrame) (x : string) (y : option string)
        (chart_type agg : string) (by_ : Series) (e : PyExc) :
  getitem df x = Ok by_ ->
  (forall y', y = Some y' -> y' <> "" -> exists m, getitem df y' = Ok m) ->
  (viz_area reduce df x y chart_type agg = Raise e <->
   e = ValueError /\
   In chart_type ["Bar (agg)"; "Line (agg)"] /\
   ((numeric_measure df y = Ok (Some x) /\
     In agg ["mean"; "sum"; "median"; "count"]) \/
    (numeric_measure df y = Ok None /\ x = "count"))).
Proof.
  intros Gx Hy. unfold viz_area.
  destruct (existsb (String.eqb chart_type) ["Bar (agg)"; "Line (agg)"])
    eqn:CT.
  - apply existsb_String_In in CT.
    destruct (numeric_measure_returns df y Hy) as [r NM]. rewrite NM.
    cbn [rbind]. destruct r as [y'|].
    + destruct (numeric_measure_Some df y y' NM) as [-> [m [Gy K]]].
      unfold groupby_reduce, groupby_count. rewrite Gx, Gy. cbn [rbind].
      destruct (String.eqb_spec x y') as [<-|N].
      * destruct (String.eqb_spec agg "mean") as [->|N1];
          [simpl; intuition congruence|].
        destruct (String.eqb_spec agg "sum") as [->|N2];
          [simpl; intuition congruence|].
        destruct (String.eqb_spec agg "median") as [->|N3];
          [simpl; intuition congruence|].
        destruct (String.eqb_spec agg "count") as [->|N4];
          [simpl; intuition congruence|].
        simpl. split; [discriminate|]. intros (_ & _ & [[_ I]|[I _]]);
          [|discriminate]. simpl in I. intuition congruence.
      * assert (forall d : Result BarData,
                   (exists b, d = Ok b) ->
                   (data <- d ;;
                    Ok [Subheader "📊 Visualization";
                        PlotlyChart
                          (BarFigure data x y'
                             (agg ++ " of " ++ y' ++ " by " ++ x))])
                   <> Raise e) as NR
            by (intros d [b ->]; discriminate).
        split.
        -- intros H. exfalso. revert H. apply NR.
           destruct (agg =? "mean"); [simpl; eauto|].
           destruct (agg =? "sum"); [simpl; eauto|].
           destruct (agg =? "median"); [simpl; eauto|].
           destruct (agg =? "count"); simpl; eauto.
        -- intros (_ & _ & [[I _]|[I _]]); congruence.
    + unfold groupby_size. rewrite Gx. cbn [rbind].
      destruct (String.eqb_spec x "count") as [->|N]; simpl.
      * intuition congruence.
      * split; [discriminate|].
        intros (_ & _ & [[I _]|[_ I]]); congruence.
  - assert (~ In chart_type ["Bar (agg)"; "Line (agg)"]) as NI.
    { intros I. apply existsb_String_In in I. congruence. }
    split; [|tauto]. intros H. exfalso. revert H.
    destruct (chart_type =? "Scatter"); [destruct y; discriminate|].
    destruct (chart_type =? "Histogram"); [|discriminate].
    rewrite Gx. cbn [rbind].
    destruct (is_numeric_dtype (dtype by_)); discriminate.
Qed.

End ChartFacts.

(* ================================================================= *)
(** * The list of active filters *)

Lemma Subseq_nil_l {A : Type} (l : list A) : Subseq [] l.
Proof. induction l; [apply Subseq_nil | now apply Subseq_drop]. Qed.

Lemma Subseq_pop {A : Type} (i : nat) (l : list A) : Subseq (pop i l) l.
Proof.
  unfold pop. revert l; induction i as [|i IH]; intros [|a l]; simpl.
  - apply Subseq_nil.
  - apply Subseq_drop, Subseq_refl.
  - apply Subseq_nil.
  - apply Subseq_keep, IH.
Qed.

Lemma length_pop {A : Type} (i : nat) (l : list A) :
  (i < List.length l)%nat -> S (List.length (pop i l)) = List.length l.
Proof.
  unfold pop. revert l; induction i as [|i IH]; intros [|a l] H;
    simpl in *; try lia.
  - cbn. f_equal. apply IH. lia.
Qed.

Lemma first_pressed_range (p : nat -> bool) (n : nat) :
  forall i j, first_pressed p i n = Some j ->
              (i <= j < i + n)%nat /\ p j = true.
Proof.
  induction n as [|n IH]; intros i j; simpl; [discriminate|].
  destruct (p i) eqn:P.
  - intros H; injection H as <-. split; [lia | assumption].
  - intros H. apply IH in H. split; [lia | tauto].
Qed.

Lemma first_pressed_last (p : nat -> bool) (n : nat) :
  forall i,
    (forall j, (i <= j < i + n)%nat -> p j = false) ->
    p (i + n)%nat = true ->
    first_pressed p i (S n) = Some (i + n)%nat.
Proof.
  induction n as [|n IH]; intros i H P; simpl.
  - rewrite Nat.add_0_r in P. rewrite P. f_equal. lia.
  - rewrite (H i) by lia.
    replace (i + S n)%nat with (S i + n)%nat in * by lia.
    apply IH; [|assumption]. intros j J. apply H. lia.
Qed.

Lemma first_pressed_none (p : nat -> bool) (n : nat) :
  forall i, (forall j, p j = false) -> first_pressed p i n = None.
Proof.
  induction n as [|n IH]; intros i H; simpl; [reflexivity|].
  rewrite H. now apply IH.
Qed.

Lemma pop_last {A : Type} (l : list A) (a : A) :
  pop (List.length l) (l ++ [a])%list = l.
Proof.
  unfold pop. rewrite firstn_app, firstn_all, Nat.sub_diag, skipn_app.
  rewrite (skipn_all2 (n := S (List.length l)) l) by (simpl; lia).
  replace (S (List.length l) - List.length l)%nat with 1%nat by lia.
  simpl. now rewrite !app_nil_r.
Qed.

Section SessionFacts.

Variable re : string -> option (string -> bool).
Variable B : Builtins.

(** X17: A run that [build_filter_ui] ends with a rerun, and that is not the
    submission of the form, has removed one filter or all of them; the
    table the next run evaluates has every row of the table evaluated
    with the list as it was. *)
Theorem rerun_restores_rows
        (df T R : DataFrame) (w : Widgets) (st st' : SessionState) :
  add_pressed w = false ->
  build_filter_ui B df w st = (Ok Rerun, st') ->
  Forall (fun g => reads_datetime_text T g = false) (session_filters st) ->
  evaluate re T (session_filters st) = Ok R ->
  (List.length (session_filters st') < List.length (session_filters st))%nat
  /\ exists R' : DataFrame,
       evaluate re T (session_filters st') = Ok R' /\
       Subseq (rows R) (rows R').
Proof.
  intros A H D E. unfold build_filter_ui in H. rewrite A in H.
  destruct (form_filter B df w) as [f|e]; [|discriminate].
  destruct (session_filters st) as [|g fs] eqn:S; [discriminate|].
  assert (Subseq (session_filters st') (g :: fs)
          /\ (List.length (session_filters st') < List.length (g :: fs))%nat)
    as [Sub Len].
  { destruct (first_pressed (remove_pressed w) 0 (List.length (g :: fs)))
      as [i|] eqn:P.
    - injection H as <-. cbn [session_filters filters].
      apply first_pressed_range in P as [P _].
      split; [apply Subseq_pop|].
      pose proof (length_pop i (g :: fs)) as L. lia.
    - destruct (clear_pressed w); [|discriminate].
      injection H as <-. cbn [session_filters filters].
      split; [apply Subseq_nil_l | simpl; lia]. }
  split; [assumption|].
  rewrite !evaluate_select_all in *.
  now apply select_all_Subseq with (F := (g :: fs)).
Qed.

(** X18: Adding a filter with the form and, in the next run, pressing the
    remove button of the new entry leaves the list of filters as it was
    before the two runs. *)
Theorem add_then_remove_restores
        (df : DataFrame) (w1 w2 : Widgets) (st : SessionState)
        (f g : Filter) :
  form_filter B df w1 = Ok f ->
  add_pressed w1 = true ->
  (forall i, remove_pressed w1 i = false) ->
  clear_pressed w1 = false ->
  form_filter B df w2 = Ok g ->
  add_pressed w2 = false ->
  remove_pressed w2 (List.length (session_filters st)) = true ->
  (forall i, (i < List.length (session_filters st))%nat ->
             remove_pressed w2 i = false) ->
  build_filter_ui B df w1 st
  = (Ok Continue, mkSession (Some (session_filters st ++ [f])%list)) /\
  build_filter_ui B df w2 (snd (build_filter_ui B df w1 st))
  = (Ok Rerun, mkSession (Some (session_filters st))).
Proof.
  intros F1 A1 R1 C1 F2 A2 P2 N2.
  assert (build_filter_ui B df w1 st
          = (Ok Continue, mkSession (Some (session_filters st ++ [f])%list)))
    as E.
  { unfold build_filter_ui. rewrite F1, A1.
    destruct (session_filters st ++ [f])%list as [|a l] eqn:L.
    - now destruct (session_filters st).
    - rewrite first_pressed_none, C1 by assumption. reflexivity. }
  split; [assumption|]. rewrite E. cbn [snd].
  unfold build_filter_ui. cbn [session_filters filters]. rewrite F2, A2.
  destruct (session_filters st ++ [f])%list as [|a l] eqn:L;
    [now destruct (session_filters st)|].
  rewrite <- L, length_app. simpl List.length.
  rewrite Nat.add_1_r.
  rewrite (first_pressed_last (remove_pressed w2)
             (List.length (session_filters st)) 0); auto.
  - simpl. now rewrite pop_last.
  - intros j J. apply N2. lia.
Qed.

End SessionFacts.


(* ================================================================= *)
(** ** The added properties on concrete tables *)

Lemma evaluate_Permutation_witness :
  Permutation [age_at_least_20; city_is_la] [city_is_la; age_at_least_20] /\
  evaluate LiteralRegex.compile people [age_at_least_20; city_is_la]
  = Ok people_la /\
  evaluate LiteralRegex.compile people [city_is_la; age_at_least_20]
  = Ok people_la.
Proof.
  assert (Permutation [age_at_least_20; city_is_la]
            [city_is_la; age_at_least_20]) as P by apply perm_swap.
  split; [exact P|]. split; [reflexivity|].
  apply (evaluate_Permutation LiteralRegex.compile people people_la
           [age_at_least_20; city_is_la] [city_is_la; age_at_least_20] P).
  - repeat constructor.
  - reflexivity.
Defined.

Lemma evaluate_fewer_filters_more_rows_witness :
  Subseq [age_at_least_20] [age_at_least_20; city_is_la] /\
  evaluate LiteralRegex.compile people [age_at_least_20; city_is_la]
  = Ok people_la /\
  exists R' : DataFrame,
    evaluate LiteralRegex.compile people [age_at_least_20] = Ok R' /\
    Subseq (rows people_la) (rows R').
Proof.
  assert (Subseq [age_at_least_20] [age_at_least_20; city_is_la]) as S
      by (apply Subseq_keep, Subseq_drop, Subseq_nil).
  split; [exact S|]. split; [reflexivity|].
  apply (evaluate_fewer_filters_more_rows LiteralRegex.compile people
           people_la [age_at_least_20; city_is_la] [age_at_least_20] S).
  - repeat constructor.
  - reflexivity.
Defined.

Lemma evaluate_raises_by_schema_witness :
  schema people = schema nobody /\
  (evaluate LiteralRegex.compile people [zip_is_abc] = Raise KeyError <->
   evaluate LiteralRegex.compile nobody [zip_is_abc] = Raise KeyError).
Proof.
  split; [reflexivity|].
  apply (evaluate_raises_by_schema LiteralRegex.compile people nobody
           [zip_is_abc] KeyError).
  reflexivity.
Defined.

Lemma evaluate_unknown_column_witness :
  evaluate LiteralRegex.compile people [age_at_least_20] = Ok people_adults /\
  ~ In (col zip_is_abc) (labels people) /\
  evaluate LiteralRegex.compile people
    [age_at_least_20; zip_is_abc; city_is_la]
  = Raise KeyError.
Proof.
  assert (~ In (col zip_is_abc) (labels people)) as N
      by (simpl; intros [H|[H|[]]]; discriminate H).
  split; [reflexivity|]. split; [exact N|].
  apply (evaluate_unknown_column LiteralRegex.compile people people_adults
           [age_at_least_20] [city_is_la] zip_is_abc);
    [reflexivity | exact N].
Defined.

Lemma evaluate_foreign_operator_witness :
  getitem people (col age_contains_abc) = Ok (F64 [10; 20; 30; nan]%float) /\
  existsb (String.eqb (op age_contains_abc)) numeric_ops = false /\
  evaluate LiteralRegex.compile people [age_contains_abc; city_is_la]
  = evaluate LiteralRegex.compile people [city_is_la].
Proof.
  split; [reflexivity|]. split; [reflexivity|].
  apply (evaluate_foreign_operator LiteralRegex.compile people
           [] [city_is_la] age_contains_abc (F64 [10; 20; 30; nan]%float));
    reflexivity.
Defined.

Lemma evaluate_drops_missing_witness :
  getitem people (col age_at_least_20) = Ok (F64 [10; 20; 30; nan]%float) /\
  no_missing (F64 [10; 20; 30; nan]%float) = false /\
  evaluate LiteralRegex.compile people [city_is_la; age_at_least_20]
  = Ok people_la /\
  exists s' : Series,
    getitem people_la (col age_at_least_20) = Ok s' /\ no_missing s' = true.
Proof.
  split; [reflexivity|]. split; [reflexivity|]. split; [reflexivity|].
  apply (evaluate_drops_missing LiteralRegex.compile people people_la
           [city_is_la; age_at_least_20] age_at_least_20
           (F64 [10; 20; 30; nan]%float) 20%float).
  - right. left. reflexivity.
  - reflexivity.
  - reflexivity.
  - reflexivity.
  - simpl. tauto.
  - reflexivity.
Defined.

Lemma ne_keeps_missing_witness :
  getitem people "age" = Ok (F64 [10; 20; 30; nan]%float) /\
  py_float number_20 = Some 20%float /\
  exists (R : DataFrame) (ys : list float),
    evaluate LiteralRegex.compile people [mkFilter "age" "!=" number_20]
    = Ok R /\
    getitem R "age" = Ok (F64 ys) /\
    filter Float64.isnan ys
    = filter Float64.isnan [10; 20; 30; nan]%float.
Proof.
  split; [reflexivity|]. split; [reflexivity|].
  apply (ne_keeps_missing LiteralRegex.compile people "age" number_20
           20%float [10; 20; 30; nan]%float);
    reflexivity.
Defined.

Lemma form_filter_numeric_applies_witness :
  form_filter example_builtins people add_age_at_least_20
  = Ok (mkFilter "age" ">=" (of_float example_builtins 20%float)) /\
  exists m : list bool,
    row_mask LiteralRegex.compile
      (mkFilter "age" ">=" (of_float example_builtins 20%float))
      (F64 [10; 20; 30; nan]%float)
    = Ok (Some m) /\
    evaluate LiteralRegex.compile people
      [mkFilter "age" ">=" (of_float example_builtins 20%float)]
    = Ok (getitem_mask m people).
Proof.
  split; [reflexivity|].
  apply (form_filter_numeric_applies LiteralRegex.compile example_builtins
           people add_age_at_least_20
           (mkFilter "age" ">=" (of_float example_builtins 20%float))
           (F64 [10; 20; 30; nan]%float));
    reflexivity.
Defined.

Lemma form_filter_raises_only_ReError_witness :
  form_filter example_builtins people add_city_contains_paren
  = Ok (mkFilter "city" "contains" (of_str example_builtins "(")) /\
  evaluate LiteralRegex.compile people
    [mkFilter "city" "contains" (of_str example_builtins "(")]
  = Raise ReError /\
  (ReError = ReError /\
   In (op (mkFilter "city" "contains" (of_str example_builtins "(")))
     ["contains"; "not contains"] /\
   LiteralRegex.compile (text_input add_city_contains_paren) = None).
Proof.
  split; [reflexivity|]. split; [reflexivity|].
  apply (form_filter_raises_only_ReError LiteralRegex.compile
           example_builtins people add_city_contains_paren
           (mkFilter "city" "contains" (of_str example_builtins "("))
           ReError);
    reflexivity.
Defined.

Lemma form_filter_date_ordering_ignored_witness :
  form_filter example_builtins visits add_when_before
  = Ok (mkFilter "when" "<" (of_date (2020, 1, 2)%nat)) /\
  getitem visits "when" = Ok (Datetime64 [Some new_year; Some next_noon]) /\
  evaluate LiteralRegex.compile visits
    [mkFilter "when" "<" (of_date (2020, 1, 2)%nat)]
  = Ok visits.
Proof.
  split; [reflexivity|]. split; [reflexivity|].
  apply (form_filter_date_ordering_ignored LiteralRegex.compile
           example_builtins visits add_when_before
           (mkFilter "when" "<" (of_date (2020, 1, 2)%nat))
           (Datetime64 [Some new_year; Some next_noon])).
  - reflexivity.
  - reflexivity.
  - reflexivity.
  - simpl. lia.
Defined.

Lemma groupby_size_partitions_witness :
  groupby_size people "city"
  = Ok [(ObjectCell (Some "NYC"), 2%nat); (ObjectCell (Some "la"), 1%nat);
        (ObjectCell None, 1%nat)] /\
  exists by_ : Series,
    getitem people "city" = Ok by_ /\
    Pairwise other_group
      [ObjectCell (Some "NYC"); ObjectCell (Some "la"); ObjectCell None] /\
    (forall c, In c (cells by_) ->
               exists k,
                 In k [ObjectCell (Some "NYC"); ObjectCell (Some "la");
                       ObjectCell None] /\
                 key_eqb c k = true) /\
    (2 + (1 + (1 + 0)))%nat = size by_.
Proof.
  split; [reflexivity|].
  apply (groupby_size_partitions people "city"
           [(ObjectCell (Some "NYC"), 2%nat); (ObjectCell (Some "la"), 1%nat);
            (ObjectCell None, 1%nat)]).
  reflexivity.
Defined.

Lemma groupby_count_total_witness :
  aligned people = true /\
  groupby_count people "city" "age"
  = Ok [(ObjectCell (Some "NYC"), 1%nat); (ObjectCell (Some "la"), 1%nat);
        (ObjectCell None, 1%nat)] /\
  exists measure : Series,
    getitem people "age" = Ok measure /\
    (1 + (1 + (1 + 0)))%nat
    = List.length (filter (fun c => negb (isna c)) (cells measure)).
Proof.
  split; [reflexivity|]. split; [reflexivity|].
  apply (groupby_count_total people "city" "age"
           [(ObjectCell (Some "NYC"), 1%nat); (ObjectCell (Some "la"), 1%nat);
            (ObjectCell None, 1%nat)]);
    reflexivity.
Defined.

Lemma evaluate_lowers_group_sizes_witness :
  evaluate LiteralRegex.compile people [age_at_least_20] = Ok people_adults /\
  exists by' : Series,
    getitem people_adults "city" = Ok by' /\
    forall k : Cell,
      (group_size by' k
       <= group_size (Object [Some "NYC"; Some "la"; None; Some "NYC"]) k)%nat.
Proof.
  split; [reflexivity|].
  apply (evaluate_lowers_group_sizes LiteralRegex.compile people
           people_adults [age_at_least_20] "city"
           (Object [Some "NYC"; Some "la"; None; Some "NYC"]));
    reflexivity.
Defined.

Lemma evaluate_keeps_correlation_columns_witness :
  evaluate LiteralRegex.compile people [age_at_least_20] = Ok people_adults /\
  Selected (select_dtypes_number people)
    (select_dtypes_number people_adults) /\
  labels (select_dtypes_number people_adults)
  = labels (select_dtypes_number people) /\
  (correlation_matrix people_adults = [] <-> correlation_matrix people = []).
Proof.
  split; [reflexivity|].
  apply (evaluate_keeps_correlation_columns LiteralRegex.compile people
           people_adults [age_at_least_20]).
  reflexivity.
Defined.

Lemma viz_area_raises_witness :
  getitem people "age" = Ok (F64 [10; 20; 30; nan]%float) /\
  (viz_area (fun _ _ => IntCell 0) people "age" (Some "age")
     "Bar (agg)" "count"
   = Raise ValueError <->
   ValueError = ValueError /\
   In "Bar (agg)" ["Bar (agg)"; "Line (agg)"] /\
   ((numeric_measure people (Some "age") = Ok (Some "age") /\
     In "count" ["mean"; "sum"; "median"; "count"]) \/
    (numeric_measure people (Some "age") = Ok None /\ "age" = "count"))).
Proof.
  split; [reflexivity|].
  apply (viz_area_raises (fun _ _ => IntCell 0) people "age" (Some "age")
           "Bar (agg)" "count" (F64 [10; 20; 30; nan]%float) ValueError).
  - reflexivity.
  - intros y' E _. injection E as E. rewrite <- E.
    exists (F64 [10; 20; 30; nan]%float). reflexivity.
Defined.

Lemma rerun_restores_rows_witness :
  build_filter_ui example_builtins people (press_remove 0)
    (mkSession (Some [city_is_la; age_at_least_20]))
  = (Ok Rerun, mkSession (Some [age_at_least_20])) /\
  evaluate LiteralRegex.compile people [city_is_la; age_at_least_20]
  = Ok people_la /\
  (1 < 2)%nat /\
  exists R' : DataFrame,
    evaluate LiteralRegex.compile people [age_at_least_20] = Ok R' /\
    Subseq (rows people_la) (rows R').
Proof.
  split; [reflexivity|]. split; [reflexivity|].
  apply (rerun_restores_rows LiteralRegex.compile example_builtins people
           people people_la (press_remove 0)
           (mkSession (Some [city_is_la; age_at_least_20]))
           (mkSession (Some [age_at_least_20]))).
  - reflexivity.
  - reflexivity.
  - repeat constructor.
  - reflexivity.
Defined.

Lemma add_then_remove_restores_witness :
  form_filter example_builtins people add_age_at_least_20
  = Ok (mkFilter "age" ">=" (of_float example_builtins 20%float)) /\
  build_filter_ui example_builtins people add_age_at_least_20
    (mkSession (Some [city_is_la]))
  = (Ok Continue,
     mkSession
       (Some [city_is_la;
              mkFilter "age" ">=" (of_float example_builtins 20%float)])) /\
  build_filter_ui example_builtins people (press_remove 1)
    (snd (build_filter_ui example_builtins people add_age_at_least_20
            (mkSession (Some [city_is_la]))))
  = (Ok Rerun, mkSession (Some [city_is_la])).
Proof.
  split; [reflexivity|].
  apply (add_then_remove_restores example_builtins people
           add_age_at_least_20 (press_remove 1)
           (mkSession (Some [city_is_la]))
           (mkFilter "age" ">=" (of_float example_builtins 20%float))
           (mkFilter "city" "==" (of_str example_builtins ""))).
  - reflexivity.
  - reflexivity.
  - intros i. reflexivity.
  - reflexivity.
  - reflexivity.
  - reflexivity.
  - reflexivity.
  - intros i H. simpl in H. destruct i; [reflexivity | lia].
Defined.


(* ================================================================= *)
(** * The correlation matrix *)

(** ** Exact steps of binary64 arithmetic *)












(** ** One coordinate of Welford's loop on a column without spread *)





(** ** Welford's loop on a column without spread *)










(** ** The matrix [nancorr] fills *)









(** ** [correlation_matrix] *)




